(** * covid-19-data: the time-series reporting pipeline

    A shallow embedding of the data-transformation pipeline shared by
    [covid-19-states.py] and [covid-19-counties.py]:

      load CSV -> derive daily columns -> smooth -> merge populations
               -> normalise -> select regions -> noise filter -> present

    A pandas DataFrame is a list of records (one record per row, in index
    order); a Series is a list of values.  Integer columns are [Z].  A
    float64 column is a list of [fval]: NaN and the two infinities are kept
    apart, finite values are exact rationals (rounding is not modelled).
    Python strings are [string]s whose characters are the code points
    0..255. *)

From Stdlib Require Import List Bool Arith ZArith QArith Lia.
From Stdlib Require Import Ascii String.
From Stdlib Require Import Permutation Sorted.
Import ListNotations.

Local Open Scope Z_scope.

(* ================================================================== *)
(** ** Python built-ins used by the scripts *)
(* ================================================================== *)

Module Py.

Local Open Scope string_scope.

(** [str.isspace] on the code points 0..255; [str.strip()] removes exactly
    these characters. *)
Definition isspace (c : ascii) : bool :=
  let n := nat_of_ascii c in
  (((9 <=? n) && (n <=? 13)) || ((28 <=? n) && (n <=? 32))
   || (n =? 133) || (n =? 160))%nat.

(** The characters [int()] skips around a literal: it does not skip the
    separators 0x1c..0x1f. *)
Definition int_space (c : ascii) : bool :=
  let n := nat_of_ascii c in
  (((9 <=? n) && (n <=? 13)) || (n =? 32) || (n =? 133) || (n =? 160))%nat.

Fixpoint lstrip_with (sp : ascii -> bool) (s : string) : string :=
  match s with
  | EmptyString => EmptyString
  | String c r => if sp c then lstrip_with sp r else s
  end.

Fixpoint rev_onto (s acc : string) : string :=
  match s with
  | EmptyString => acc
  | String c r => rev_onto r (String c acc)
  end.

Definition srev (s : string) : string := rev_onto s EmptyString.

Definition rstrip_with (sp : ascii -> bool) (s : string) : string :=
  srev (lstrip_with sp (srev s)).

Definition strip_with (sp : ascii -> bool) (s : string) : string :=
  rstrip_with sp (lstrip_with sp s).

(** [s.strip()] *)
Definition strip (s : string) : string := strip_with isspace s.

(** [s.split(',')]: the result is never empty, and an empty field is kept. *)
Fixpoint split_comma (s : string) : list string :=
  match s with
  | EmptyString => [EmptyString]
  | String c r =>
      if Ascii.eqb c ","%char then EmptyString :: split_comma r
      else match split_comma r with
           | [] => [String c EmptyString]
           | t :: ts => String c t :: ts
           end
  end.

Definition digit_val (c : ascii) : option Z :=
  let n := nat_of_ascii c in
  if ((48 <=? n) && (n <=? 57))%nat then Some (Z.of_nat (n - 48)) else None.

(** The digits of a base-10 literal: at least one digit, single underscores
    only between digits.  Returns the value and the number of digits. *)
Fixpoint digits_acc (after_digit : bool) (acc : Z) (count : nat) (s : string)
  : option (Z * nat) :=
  match s with
  | EmptyString => if after_digit then Some (acc, count) else None
  | String c r =>
      match digit_val c with
      | Some d => digits_acc true (10 * acc + d) (S count) r
      | None =>
          if Ascii.eqb c "_"%char
          then if after_digit then digits_acc false acc count r else None
          else None
      end
  end.

Section Int.

(** [sys.get_int_max_str_digits()]: [0] where the interpreter has no
    limit (always so before CPython 3.11), [4300] by default since.  A
    literal with more digits than a positive limit is a [ValueError]. *)
Variable int_max_str_digits : nat.

Definition parse_digits (s : string) : option Z :=
  match digits_acc false 0 0%nat s with
  | Some (v, count) =>
      if ((0 <? int_max_str_digits) && (int_max_str_digits <? count))%nat
      then None
      else Some v
  | None => None
  end.

(** [int(s)] for a [str]: [None] stands for [ValueError]. *)
Definition int (s : string) : option Z :=
  match strip_with int_space s with
  | String "+" r => parse_digits r
  | String "-" r => option_map Z.opp (parse_digits r)
  | body => parse_digits body
  end.

End Int.

(** [l[:n]] *)
Definition slice_to {A : Type} (n : Z) (l : list A) : list A :=
  if (0 <=? n)%Z then firstn (Z.to_nat n) l
  else firstn (List.length l - Z.to_nat (- n)) l.

End Py.

(* ================================================================== *)
(** ** pandas: Series and DataFrame operations used by the scripts *)
(* ================================================================== *)

Module Pd.

(** A float64 value. *)
Inductive fval : Type :=
| NaN
| PInf
| NInf
| Fin (q : Q).

Definition isna (v : fval) : bool :=
  match v with NaN => true | _ => false end.

(** An int64 value seen as a float64. *)
Definition of_int (z : Z) : fval := Fin (inject_Z z).

(** [v / p] where [p] comes from an int64 column. *)
Definition div_int (v : fval) (p : Z) : fval :=
  match v with
  | NaN => NaN
  | PInf => if 0 <=? p then PInf else NInf
  | NInf => if 0 <=? p then NInf else PInf
  | Fin q =>
      if p =? 0 then
        match Qcompare q 0 with
        | Eq => NaN
        | Gt => PInf
        | Lt => NInf
        end
      else Fin (q / inject_Z p)
  end.

(** [v * c] for a positive finite constant [c]. *)
Definition mul_pos (v : fval) (c : Q) : fval :=
  match v with
  | Fin q => Fin (q * c)
  | other => other
  end.

(** [v >= t]: a comparison with NaN is false. *)
Definition ge (v : fval) (t : Q) : bool :=
  match v with
  | NaN => false
  | PInf => true
  | NInf => false
  | Fin q => Qle_bool t q
  end.

(** The order [sort_values] puts the values of a column in: the numeric
    order on the values that are not NaN, and NaN below everything, so that
    a descending sort with [na_position='last'] is descending for [fle]. *)
Definition fle (a b : fval) : bool :=
  match a, b with
  | NaN, _ => true
  | _, NaN => false
  | NInf, _ => true
  | _, NInf => false
  | _, PInf => true
  | PInf, _ => false
  | Fin x, Fin y => Qle_bool x y
  end.

(** [s.diff()] on an int64 Series: the first entry is missing. *)
Fixpoint diff_from (prev : Z) (l : list Z) : list (option Z) :=
  match l with
  | [] => []
  | x :: r => Some (x - prev) :: diff_from x r
  end.

Definition diff (l : list Z) : list (option Z) :=
  match l with
  | [] => []
  | x :: r => None :: diff_from x r
  end.

(** [s.fillna(d).astype(int)]: the differences of integers are integers, so
    the conversion leaves them as they are. *)
Definition fillna_int (d : Z) (l : list (option Z)) : list Z :=
  map (fun o => match o with Some v => v | None => d end) l.

Definition sum (l : list Z) : Z := fold_right Z.add 0 l.

(** [s.rolling(window=w).sum()]: [min_periods] defaults to the window, so the
    entry at position [i] is missing until [w] values are available, and is
    then the sum of the [w] values ending at [i]. *)
Definition rolling_sum (w : nat) (l : list Z) : list (option Z) :=
  map (fun i =>
         if (S i <? w)%nat then None
         else Some (sum (firstn w (skipn (S i - w) l))))
      (seq 0 (List.length l)).

(** [s.divide(d)] on the result of a rolling sum. *)
Definition divide (d : Z) (l : list (option Z)) : list fval :=
  map (fun o => match o with
                | Some s => div_int (of_int s) d
                | None => NaN
                end) l.

(** A stable sort by insertion: [leb x y] says that [x] may stand before
    [y]. *)
Fixpoint insert_sorted {A : Type} (leb : A -> A -> bool) (x : A) (l : list A)
  : list A :=
  match l with
  | [] => [x]
  | y :: r => if leb x y then x :: l else y :: insert_sorted leb x r
  end.

Definition stable_sort {A : Type} (leb : A -> A -> bool) (l : list A)
  : list A :=
  fold_right (insert_sorted leb) [] l.

(** [df.sort_values(column, ascending=False)]: the rows whose value is not
    NaN in descending order, then the rows whose value is NaN in their
    original order.  pandas sorts one column with numpy's default
    quicksort, which leaves the relative order of rows with equal values
    unspecified; this model keeps them in their original order (what numpy
    does on short arrays).  The lemmas below use only that the result is a
    descending permutation. *)
Definition sort_values_desc {R : Type} (column : R -> fval) (df : list R)
  : list R :=
  stable_sort (fun x y => fle (column y) (column x))
              (filter (fun r => negb (isna (column r))) df)
  ++ filter (fun r => isna (column r)) df.

(** [df.drop_duplicates(key)]: of the rows with the same key, the first. *)
Fixpoint drop_duplicates_from {R : Type} (key : R -> string)
  (seen : list string) (df : list R) : list R :=
  match df with
  | [] => []
  | r :: rest =>
      if existsb (String.eqb (key r)) seen
      then drop_duplicates_from key seen rest
      else r :: drop_duplicates_from key (key r :: seen) rest
  end.

Definition drop_duplicates {R : Type} (key : R -> string) (df : list R)
  : list R :=
  drop_duplicates_from key [] df.

(** [pd.merge(left, right, on=key)]: an inner join.  Each left row is paired
    with the value of every right row with the same key, in the order of the
    left rows. *)
Definition merge {R K : Type} (eqb : K -> K -> bool) (key : R -> K)
  (left : list R) (right : list (K * Z)) : list (R * Z) :=
  flat_map (fun r =>
              map (fun p => (r, snd p))
                  (filter (fun p => eqb (key r) (fst p)) right))
           left.

End Pd.

(* ================================================================== *)
(** ** The parts the two scripts have in common *)
(* ================================================================== *)

Module Common.

Import Pd.
Local Open Scope string_scope.

(** The four metric columns of the derived table. *)
Inductive column : Type :=
| total_cases_col
| total_deaths_col
| daily_cases_col
| daily_deaths_col.

Definition column_name (c : column) : string :=
  match c with
  | total_cases_col => "total cases"
  | total_deaths_col => "total deaths"
  | daily_cases_col => "daily cases"
  | daily_deaths_col => "daily deaths"
  end.

(** The dictionary lookup of [choose_column] / [choose_series]:
    [{'c': 'daily cases', 'd': 'daily deaths', 'C': 'total cases',
      'D': 'total deaths'}.get(multi, 'total cases')] *)
Definition metric_of_flag (multi : option string) : column :=
  match multi with
  | Some "c" => daily_cases_col
  | Some "d" => daily_deaths_col
  | Some "C" => total_cases_col
  | Some "D" => total_deaths_col
  | _ => total_cases_col
  end.

(** The metric values of one row of the derived table. *)
Record metrics : Type := Metrics {
  total_cases : fval;
  total_deaths : fval;
  daily_cases : fval;
  daily_deaths : fval
}.

Definition get_col (c : column) (m : metrics) : fval :=
  match c with
  | total_cases_col => total_cases m
  | total_deaths_col => total_deaths m
  | daily_cases_col => daily_cases m
  | daily_deaths_col => daily_deaths m
  end.

Definition set_col (c : column) (v : fval) (m : metrics) : metrics :=
  match c with
  | total_cases_col =>
      Metrics v (total_deaths m) (daily_cases m) (daily_deaths m)
  | total_deaths_col =>
      Metrics (total_cases m) v (daily_cases m) (daily_deaths m)
  | daily_cases_col =>
      Metrics (total_cases m) (total_deaths m) v (daily_deaths m)
  | daily_deaths_col =>
      Metrics (total_cases m) (total_deaths m) (daily_cases m) v
  end.

(** [['total cases', 'total deaths', 'daily cases', 'daily deaths']] *)
Definition norm_columns : list column :=
  [total_cases_col; total_deaths_col; daily_cases_col; daily_deaths_col].

(** The smoothing of a daily column:
    [df[c] = df[c].rolling(window=7).sum().divide(7.0)] *)
Definition smooth_col (daily : list Z) : list fval :=
  divide 7 (rolling_sum 7 daily).

(** The daily column of a cumulative one:
    [df.cases.diff().fillna(0).astype(int)] *)
Definition daily_of (cumulative : list Z) : list Z :=
  fillna_int 0 (diff cumulative).

(** One row of the derived table: the columns that identify it (region,
    date, numeric code) and its metric values. *)
Record row (I : Type) : Type := Row {
  ids : I;
  vals : metrics
}.
Arguments Row {I} _ _.
Arguments ids {I} _.
Arguments vals {I} _.

(** A row after the merge with the population table: the row and the
    [population] column. *)
Definition mrow (I : Type) : Type := (row I * Z)%type.

Definition population {I : Type} (m : mrow I) : Z := snd m.

(** [df[c]] on the merged table. *)
Definition col {I : Type} (c : column) (m : mrow I) : fval :=
  get_col c (vals (fst m)).

(** [df[[c]] = values], one value per row. *)
Definition assign {I : Type} (c : column) (f : mrow I -> fval)
  (df : list (mrow I)) : list (mrow I) :=
  map (fun m => (Row (ids (fst m)) (set_col c (f m) (vals (fst m))), snd m))
      df.

(** The Normalizer:
    [for col in [...]:
         df[[col]] = df[[col]].div(df.population, axis=0)
         df[[col]] = df[[col]].mul(100.0)] *)
Definition normalize_step {I : Type} (df : list (mrow I)) (c : column)
  : list (mrow I) :=
  let df := assign c (fun m => div_int (col c m) (population m)) df in
  assign c (fun m => mul_pos (col c m) 100) df.

Definition normalize {I : Type} (df : list (mrow I)) : list (mrow I) :=
  fold_left normalize_step norm_columns df.

(** The noise filter:
    [if opts['--norm']: df = df[df['daily cases'] >= 0]
     else:              df = df[df['daily cases'] >= 2]] *)
Definition noise_threshold (norm : bool) : Q :=
  if norm then 0%Q else 2%Q.

Definition noise_filter {I : Type} (norm : bool) (df : list (mrow I))
  : list (mrow I) :=
  if norm then filter (fun m => ge (col daily_cases_col m) 0) df
  else filter (fun m => ge (col daily_cases_col m) 2) df.

Section Selector.

Variable int_max_str_digits : nat.
Context {R : Type}.
(** The column that names the region: ['State'] or ['County']. *)
Variable region : R -> string.

(** The top-N branch:
    [df_sorted = df.sort_values(column, ascending=False)
                   .drop_duplicates(region)
     regions = df_sorted.region.tolist()[:top_number]] *)
Definition top_regions (top_number : Z) (df : list R) (column : R -> fval)
  : list string :=
  let df_sorted := drop_duplicates region (sort_values_desc column df) in
  Py.slice_to top_number (map region df_sorted).

(** The explicit branch:
    [[name.strip() for name in arg.split(',')]] *)
Definition explicit_regions (arg : string) : list string :=
  map Py.strip (Py.split_comma arg).

(** [get_state_list] / [get_county_list]:
    [top_number = None
     try: top_number = int(arg)
     except ValueError: pass
     if top_number: ... else: ...]
    [None] and [0] are both false for [if]. *)
Definition get_region_list (arg : string) (df : list R)
  (column : R -> fval) : list string :=
  match Py.int int_max_str_digits arg with
  | Some top_number =>
      if (top_number =? 0)%Z then explicit_regions arg
      else top_regions top_number df column
  | None => explicit_regions arg
  end.

End Selector.

End Common.

(* ================================================================== *)
(** ** covid-19-states.py *)
(* ================================================================== *)

Module States.

Import Pd Common.
Local Open Scope string_scope.

(** A row of [us-states.csv]: [date,state,fips,cases,deaths].  The date is
    the day number [pd.to_datetime] gives it. *)
Record obs : Type := Obs {
  date : Z;
  state : string;
  fips : Z;
  cases : Z;
  deaths : Z
}.

(** The identifying columns kept by [df[['State', 'Date', ..., 'fips']]]. *)
Record id_cols : Type := Ids {
  State : string;
  Date : Z;
  Fips : Z
}.

(** The table after the daily columns were added and the columns selected:
    all metric columns are still int64. *)
Record drow : Type := DRow {
  d_ids : id_cols;
  d_total_cases : Z;
  d_total_deaths : Z;
  d_daily_cases : Z;
  d_daily_deaths : Z
}.

(** The options that reach the pipeline ([--debug], [--lines] and [--log]
    only change what is printed or drawn). *)
Record opts : Type := Opts {
  multi : option string;
  norm : bool;
  states : string
}.

(** A row of [state_pops.csv]: [state,Estimated_pop_2019,Census_pop_2010]. *)
Record census : Type := Census {
  c_state : string;
  Estimated_pop_2019 : Z;
  Census_pop_2010 : Z
}.

(** The order of [df.sort_values(by=['State','Date'])]. *)
Definition by_State_Date (x y : obs) : bool :=
  match String.compare (state x) (state y) with
  | Lt => true
  | Eq => (date x <=? date y)%Z
  | Gt => false
  end.

(** Lines 180-201 of [test]: sort, daily columns, column selection. *)
Definition derive (df : list obs) : list drow :=
  let df := stable_sort by_State_Date df in
  let daily_deaths := daily_of (map deaths df) in
  let daily_cases := daily_of (map cases df) in
  map (fun x : obs * (Z * Z) =>
         let '(o, (dc, dd)) := x in
         DRow (Ids (state o) (date o) (fips o)) (cases o) (deaths o) dc dd)
      (combine df (combine daily_cases daily_deaths)).

(** Lines 203-204 of [test]: the 7-day rolling average of the daily
    columns.  The totals stay integers; they are given as floats here
    because the Normalizer may turn them into floats later. *)
Definition smooth (df : list drow) : list (row id_cols) :=
  let cases7 := smooth_col (map d_daily_cases df) in
  let deaths7 := smooth_col (map d_daily_deaths df) in
  map (fun x : drow * (fval * fval) =>
         let '(r, (c, d)) := x in
         Row (d_ids r)
             (Metrics (of_int (d_total_cases r)) (of_int (d_total_deaths r))
                      c d))
      (combine df (combine cases7 deaths7)).

(** [get_populations]: the columns [State] and [population]. *)
Definition get_populations (csv : list census) : list (string * Z) :=
  map (fun c => (c_state c, Estimated_pop_2019 c)) csv.

Definition region (m : mrow id_cols) : string := State (ids (fst m)).

(** Lines 206-212 of [test]: the merge and the optional normalisation. *)
Definition joined (o : opts) (df : list obs) (csv : list census)
  : list (mrow id_cols) :=
  let pops := get_populations csv in
  let df := merge String.eqb (fun r => State (ids r))
                  (smooth (derive df)) pops in
  if norm o then normalize df else df.

Section Run.

Variable int_max_str_digits : nat.

Definition choose_column (o : opts) : column := metric_of_flag (multi o).

Definition get_state_list (o : opts) (df : list (mrow id_cols))
  (column : column) : list string :=
  get_region_list int_max_str_digits region (states o) df (col column).

(** [test], up to the call of the Presenter: the list of states it is
    given and the table it is given. *)
Definition test (o : opts) (df : list obs) (csv : list census)
  : list string * list (mrow id_cols) :=
  let df := joined o df csv in
  let y_col := choose_column o in
  let state_list := get_state_list o df y_col in
  (state_list, noise_filter (norm o) df).

End Run.

End States.

(* ================================================================== *)
(** ** covid-19-counties.py *)
(* ================================================================== *)

Module Counties.

Import Pd Common.
Local Open Scope string_scope.

(** A row of [us-counties.csv]: [date,county,state,fips,cases,deaths].  The
    numeric code is missing on some rows. *)
Record obs : Type := Obs {
  date : Z;
  county : string;
  state : string;
  fips : option Z;
  cases : Z;
  deaths : Z
}.

(** The identifying columns kept by
    [df[['state', 'County', 'Date', ..., 'fips']]]. *)
Record id_cols : Type := Ids {
  parent : string;
  County : string;
  Date : Z;
  Fips : Z
}.

Record drow : Type := DRow {
  d_ids : id_cols;
  d_total_cases : Z;
  d_total_deaths : Z;
  d_daily_cases : Z;
  d_daily_deaths : Z
}.

(** The options that reach the pipeline. *)
Record opts : Type := Opts {
  counties : string;
  multi : option string;
  norm : bool;
  opt_state : string
}.

(** The columns of [co-est2019-alldata.csv] that are read. *)
Record census : Type := Census {
  STATE : Z;
  COUNTY : Z;
  POPESTIMATE2019 : Z
}.

(** The order of [df.sort_values(by=['state','county','Date'])]. *)
Definition by_state_county_Date (x y : obs) : bool :=
  match String.compare (state x) (state y) with
  | Lt => true
  | Gt => false
  | Eq =>
      match String.compare (county x) (county y) with
      | Lt => true
      | Gt => false
      | Eq => (date x <=? date y)%Z
      end
  end.

(** [df.fips.fillna(0).astype(int)] *)
Definition fips_or_0 (o : obs) : Z :=
  match fips o with
  | Some f => f
  | None => 0%Z
  end.

(** Lines 202-225 of [test]: sort, daily columns, column selection. *)
Definition derive (df : list obs) : list drow :=
  let df := stable_sort by_state_county_Date df in
  let daily_deaths := daily_of (map deaths df) in
  let daily_cases := daily_of (map cases df) in
  map (fun x : obs * (Z * Z) =>
         let '(o, (dc, dd)) := x in
         DRow (Ids (state o) (county o) (date o) (fips_or_0 o))
              (cases o) (deaths o) dc dd)
      (combine df (combine daily_cases daily_deaths)).

(** Lines 227-229 of [test]: the 7-day rolling average, over the table of
    all states. *)
Definition smooth (df : list drow) : list (row id_cols) :=
  let cases7 := smooth_col (map d_daily_cases df) in
  let deaths7 := smooth_col (map d_daily_deaths df) in
  map (fun x : drow * (fval * fval) =>
         let '(r, (c, d)) := x in
         Row (d_ids r)
             (Metrics (of_int (d_total_cases r)) (of_int (d_total_deaths r))
                      c d))
      (combine df (combine cases7 deaths7)).

(** [get_populations]: the columns [fips] and [population], with
    [df['fips'] = df['STATE']*1000 + df['COUNTY']]. *)
Definition get_populations (csv : list census) : list (Z * Z) :=
  map (fun c => ((STATE c * 1000 + COUNTY c)%Z, POPESTIMATE2019 c)) csv.

Definition region (m : mrow id_cols) : string := County (ids (fst m)).

(** Lines 231-239 of [test]: the requested state, the merge and the
    optional normalisation. *)
Definition joined (o : opts) (df : list obs) (csv : list census)
  : list (mrow id_cols) :=
  let df := filter (fun r => String.eqb (parent (ids r)) (opt_state o))
                   (smooth (derive df)) in
  let pops := get_populations csv in
  let df := merge Z.eqb (fun r => Fips (ids r)) df pops in
  if norm o then normalize df else df.

Section Run.

Variable int_max_str_digits : nat.

Definition choose_series (o : opts) : column := metric_of_flag (multi o).

Definition get_county_list (o : opts) (df : list (mrow id_cols))
  (column : column) : list string :=
  get_region_list int_max_str_digits region (counties o) df (col column).

(** [test], up to the call of the Presenter: the list of counties it is
    given and the table it is given. *)
Definition test (o : opts) (df : list obs) (csv : list census)
  : list string * list (mrow id_cols) :=
  let df := joined o df csv in
  let y_col := choose_series o in
  let county_list := get_county_list o df y_col in
  (county_list, noise_filter (norm o) df).

End Run.

End Counties.

(* ================================================================== *)
(** ** The vocabulary of the properties *)
(* ================================================================== *)

Module Props.

Import Pd Common.
Local Open Scope string_scope.

(** *** Strings *)

Fixpoint all_chars (p : ascii -> bool) (s : string) : bool :=
  match s with
  | EmptyString => true
  | String c r => p c && all_chars p r
  end.

Definition starts_with (p : ascii -> bool) (s : string) : bool :=
  match s with
  | EmptyString => false
  | String c _ => p c
  end.

Definition ends_with (p : ascii -> bool) (s : string) : bool :=
  starts_with p (Py.srev s).

(** [t] is [s] without the whitespace around it. *)
Definition trimmed_of (t s : string) : Prop :=
  exists pre suf,
    s = pre ++ t ++ suf
    /\ all_chars Py.isspace pre = true
    /\ all_chars Py.isspace suf = true
    /\ starts_with Py.isspace t = false
    /\ ends_with Py.isspace t = false.

Definition no_comma (s : string) : Prop :=
  all_chars (fun c => negb (Ascii.eqb c ","%char)) s = true.

(** [fields] are the pieces of [s] between its commas. *)
Definition comma_fields (s : string) (fields : list string) : Prop :=
  String.concat "," fields = s /\ Forall no_comma fields /\ fields <> [].

(** *** Values *)

(** [v < t]: a comparison with NaN is false. *)
Definition below (v : fval) (t : Q) : bool :=
  match v with
  | NaN => false
  | PInf => false
  | NInf => true
  | Fin q => negb (Qle_bool t q)
  end.

(** [(v / population) * 100] *)
Definition percent_of (v : fval) (pop : Z) : fval :=
  mul_pos (div_int v pop) 100.

(** A row with each of its four metrics as a percentage of its population. *)
Definition percent_row {I : Type} (m : mrow I) : mrow I :=
  let v := vals (fst m) in
  let pop := population m in
  (Row (ids (fst m))
       (Metrics (percent_of (total_cases v) pop)
                (percent_of (total_deaths v) pop)
                (percent_of (daily_cases v) pop)
                (percent_of (daily_deaths v) pop)),
   snd m).

(** The noise filter as a filter on "below the threshold" alone: the rows
    whose daily cases are not below the threshold. *)
Definition not_below_threshold {I : Type} (norm : bool) (df : list (mrow I))
  : list (mrow I) :=
  filter (fun m => negb (below (col daily_cases_col m) (noise_threshold norm)))
         df.

(** *** Orders *)

(** The relation a boolean order decides. *)
Definition holds {A : Type} (leb : A -> A -> bool) (x y : A) : Prop :=
  leb x y = true.

(** [x] may stand before [y] in descending order of the column. *)
Definition desc {R : Type} (column : R -> fval) (x y : R) : Prop :=
  fle (column y) (column x) = true.

(** The table the top-N branch reads the regions from: sorted in
    descending order of the column, one row per region. *)
Definition ranked {R : Type} (region : R -> string) (column : R -> fval)
  (df : list R) : list R :=
  drop_duplicates region (sort_values_desc column df).

(** *** Regions of a table *)

Section Regions.

Context {R : Type}.
Variable region : R -> string.
Variable column : R -> fval.

(** The rows of one region, in the order of the table. *)
Definition rows_of (df : list R) (r : string) : list R :=
  filter (fun x => String.eqb (region x) r) df.

(** The value of the column in the last row of a region. *)
Definition latest (df : list R) (r : string) : fval :=
  last (map column (rows_of df r)) NaN.

Definition fmax (a b : fval) : fval := if fle a b then b else a.

(** The highest value of the column among the rows of a region (NaN ranks
    lowest, as in the sort). *)
Definition highest (df : list R) (r : string) : fval :=
  fold_right fmax NaN (map column (rows_of df r)).

(** The regions of the table, each once. *)
Definition regions (df : list R) : list string :=
  nodup string_dec (map region df).

(** [l] ranks regions in descending order of [score]. *)
Definition descending (score : string -> fval) (l : list string) : Prop :=
  StronglySorted (fun a b => fle (score b) (score a) = true) l.

(** [l] is a choice of [n] regions of the table that no region left out
    beats, listed in descending order of [score], each once. *)
Definition top_by (score : string -> fval) (df : list R) (n : nat)
  (l : list string) : Prop :=
  NoDup l
  /\ (forall r, In r l -> In r (map region df))
  /\ descending score l
  /\ (forall r r', In r l -> In r' (map region df) -> ~ In r' l ->
                   fle (score r') (score r) = true)
  /\ List.length l = n.

End Regions.

End Props.

(* ================================================================== *)
(** ** Small tables *)
(* ================================================================== *)

Module Examples.

Import Pd Common.
Local Open Scope string_scope.

(** [us-states.csv] with one state whose cumulative cases over five
    consecutive days are 0, 0, 3, 3, 7. *)
Definition texas_only : list States.obs :=
  [ States.Obs 0 "Texas" 48 0 0;
    States.Obs 1 "Texas" 48 0 0;
    States.Obs 2 "Texas" 48 3 0;
    States.Obs 3 "Texas" 48 3 1;
    States.Obs 4 "Texas" 48 7 1 ].

(** The same, with one row of another state that sorts before it. *)
Definition alabama_texas : list States.obs :=
  States.Obs 0 "Alabama" 1 4 2 :: texas_only.

(** [us-counties.csv] with the same two series for two counties. *)
Definition bexar_only : list Counties.obs :=
  [ Counties.Obs 0 "Bexar" "Texas" (Some 48029) 0 0;
    Counties.Obs 1 "Bexar" "Texas" (Some 48029) 0 0;
    Counties.Obs 2 "Bexar" "Texas" (Some 48029) 3 0;
    Counties.Obs 3 "Bexar" "Texas" (Some 48029) 3 1;
    Counties.Obs 4 "Bexar" "Texas" (Some 48029) 7 1 ].

Definition anderson_bexar : list Counties.obs :=
  Counties.Obs 0 "Anderson" "Texas" (Some 48001) 4 2 :: bexar_only.

(** Seven days of one state followed by eight days of another. *)
Definition two_weeks : list States.obs :=
  [ States.Obs 0 "Alabama" 1 7 0;
    States.Obs 1 "Alabama" 1 14 0;
    States.Obs 2 "Alabama" 1 21 0;
    States.Obs 3 "Alabama" 1 28 0;
    States.Obs 4 "Alabama" 1 35 0;
    States.Obs 5 "Alabama" 1 42 0;
    States.Obs 6 "Alabama" 1 49 0;
    States.Obs 0 "Texas" 48 0 0;
    States.Obs 1 "Texas" 48 0 0;
    States.Obs 2 "Texas" 48 0 0;
    States.Obs 3 "Texas" 48 0 0;
    States.Obs 4 "Texas" 48 0 0;
    States.Obs 5 "Texas" 48 0 0;
    States.Obs 6 "Texas" 48 0 0;
    States.Obs 7 "Texas" 48 7 0 ].

Definition two_weeks_counties : list Counties.obs :=
  map (fun o =>
         Counties.Obs (States.date o)
           (if String.eqb (States.state o) "Alabama" then "Anderson"
            else "Bexar")
           "Texas"
           (if String.eqb (States.state o) "Alabama" then Some 48001
            else Some 48029)
           (States.cases o) (States.deaths o))
      two_weeks.

(** The daily column of one region of the table of daily differences. *)
Definition state_daily_cases (r : string) (df : list States.drow) : list Z :=
  map States.d_daily_cases
      (filter (fun x => String.eqb (States.State (States.d_ids x)) r) df).

Definition county_daily_cases (r : string) (df : list Counties.drow)
  : list Z :=
  map Counties.d_daily_cases
      (filter (fun x => String.eqb (Counties.County (Counties.d_ids x)) r)
              df).

(** The smoothed daily column of one region. *)
Definition state_smoothed_cases (r : string) (df : list (row States.id_cols))
  : list fval :=
  map (fun x => daily_cases (vals x))
      (filter (fun x => String.eqb (States.State (ids x)) r) df).

Definition county_smoothed_cases (r : string)
  (df : list (row Counties.id_cols)) : list fval :=
  map (fun x => daily_cases (vals x))
      (filter (fun x => String.eqb (Counties.County (ids x)) r) df).

(** A derived table of two states over two days: the daily cases of A fall
    from 10 to 1, those of B rise from 4 to 5. *)
Definition falling_rising : list (mrow States.id_cols) :=
  [ (Row (States.Ids "A" 0 1) (Metrics (of_int 10) (of_int 0) (of_int 10) (of_int 0)), 1000);
    (Row (States.Ids "A" 1 1) (Metrics (of_int 11) (of_int 0) (of_int 1) (of_int 0)), 1000);
    (Row (States.Ids "B" 0 2) (Metrics (of_int 4) (of_int 0) (of_int 4) (of_int 0)), 1000);
    (Row (States.Ids "B" 1 2) (Metrics (of_int 9) (of_int 0) (of_int 5) (of_int 0)), 1000) ].

(** Region A: 100 cases, population 1000; region B: 150 cases, population
    10000. *)
Definition a_b_states : list States.obs :=
  [ States.Obs 0 "A" 1 100 0; States.Obs 0 "B" 2 150 0 ].

Definition a_b_state_pops : list States.census :=
  [ States.Census "A" 1000 990; States.Census "B" 10000 9900 ].

Definition a_b_counties : list Counties.obs :=
  [ Counties.Obs 0 "A" "California" (Some 6001) 100 0;
    Counties.Obs 0 "B" "California" (Some 6003) 150 0 ].

Definition a_b_county_pops : list Counties.census :=
  [ Counties.Census 6 1 1000; Counties.Census 6 3 10000 ].

Definition two_weeks_pops : list States.census :=
  [ States.Census "Alabama" 4903185 4779736;
    States.Census "Texas" 28995881 25145561 ].

Definition two_weeks_county_pops : list Counties.census :=
  [ Counties.Census 48 1 57735; Counties.Census 48 29 2003554 ].

(** One state, one day. *)
Definition first_day : list States.obs := [ States.Obs 0 "Texas" 48 5 0 ].

Definition texas_pop : list States.census :=
  [ States.Census "Texas" 28995881 25145561 ].

End Examples.

(* ================================================================== *)
(** ** Python: the format of the printed numbers *)
(* ================================================================== *)

Module Fmt.

Local Open Scope string_scope.

Definition digit_char (d : Z) : ascii := ascii_of_nat (48 + Z.to_nat d).

(** The decimal digits of a natural number, most significant first, put in
    front of [acc].  Each step divides by ten; [fuel] bounds the number of
    steps. *)
Fixpoint digits_onto (fuel : nat) (n : Z) (acc : string) : string :=
  match fuel with
  | O => acc
  | S fuel' =>
      let acc' := String (digit_char (n mod 10)) acc in
      if (n <? 10)%Z then acc' else digits_onto fuel' (n / 10) acc'
  end.

(** [str(n)] for [0 <= n]: a number below [2 ^ k] has at most [k] digits. *)
Definition digits (n : Z) : string :=
  digits_onto (S (Z.to_nat (Z.log2 n))) n "".

(** The thousands separators of [format(n, ',')], on the digits from the
    least significant one: a comma before every fourth digit. *)
Fixpoint group3 (k : nat) (rev_digits : string) : string :=
  match rev_digits with
  | EmptyString => EmptyString
  | String c r =>
      match k with
      | 3%nat => String "," (String c (group3 1 r))
      | _ => String c (group3 (S k) r)
      end
  end.

Definition grouped (n : Z) : string :=
  Py.srev (group3 0 (Py.srev (digits n))).

(** [n] spaces. *)
Fixpoint spaces (n : nat) : string :=
  match n with
  | O => EmptyString
  | S n' => String " " (spaces n')
  end.

(** Right alignment in a field of [width] characters. *)
Definition lpad (width : nat) (s : string) : string :=
  spaces (width - String.length s) ++ s.

(** [format(n, '8,')] for an integer: sign, digits in groups of three,
    right-aligned in eight characters. *)
Definition format_8_comma (n : Z) : string :=
  lpad 8 (if (n <? 0)%Z then String "-" (grouped (- n)) else grouped n).

(** [s.replace(',', '')] *)
Fixpoint remove_commas (s : string) : string :=
  match s with
  | EmptyString => EmptyString
  | String c r =>
      if Ascii.eqb c ","%char then remove_commas r
      else String c (remove_commas r)
  end.

End Fmt.

(* ================================================================== *)
(** ** The Presenter, one region at a time *)
(* ================================================================== *)

Module Present.

Import Pd Common.
Local Open Scope string_scope.

(** The exception [df3.iloc[-1]] raises on a table without rows. *)
Inductive exn : Type :=
| IndexError.

(** What a [print] call writes.  The text is given where it is a string or
    an integer in the format [8,]; a float in the format [0.2f] and a
    printed table are given by their value. *)
Inductive out (I : Type) : Type :=
| Text (s : string)
| Frame (df : list (mrow I))
| Count (label : string) (v : fval)
| Percent (label : string) (v : fval).
Arguments Text {I} _.
Arguments Frame {I} _.
Arguments Count {I} _ _.
Arguments Percent {I} _ _.

(** What a call wrote, and the exception that ended it, if one did. *)
Definition run (I : Type) : Type := (list (out I) * option exn)%type.

(** The text of a line, where the model has it: an int64 value is carried
    as the float of denominator 1. *)
Definition text_of {I : Type} (o : out I) : option string :=
  match o with
  | Text s => Some s
  | Count label (Fin (Qmake z 1)) => Some (label ++ Fmt.format_8_comma z)
  | _ => None
  end.

(** [df.iloc[-1]] *)
Fixpoint iloc_last {A : Type} (df : list A) : option A :=
  match df with
  | [] => None
  | [x] => Some x
  | _ :: rest => iloc_last rest
  end.

(** [if opts['--multi']:] is taken for a flag that is given and not empty. *)
Definition truthy (flag : option string) : bool :=
  match flag with
  | Some s => negb (String.eqb s "")
  | None => false
  end.

Definition newline : string := String "010"%char EmptyString.

Section Stats.

Context {I : Type}.
(** The column that names the region. *)
Variable region : mrow I -> string.

(** [show_state_stats] / [show_county_stats]:
    [df3 = df[df[region] == name.strip()]
     if opts['--norm']:
         print(f'total cases:  {df3.iloc[-1]["total cases"]:0.2f} %')
         print(f'total deaths: {df3.iloc[-1]["total deaths"]:0.2f} %')
     else:
         print(f'total cases:  {df3.iloc[-1]["total cases"]:8,}')
         print(f'total deaths: {df3.iloc[-1]["total deaths"]:8,}')] *)
Definition show_region_stats (norm : bool) (df : list (mrow I))
  (name : string) : run I :=
  let df3 := filter (fun m => String.eqb (region m) (Py.strip name)) df in
  match iloc_last df3 with
  | None => ([], Some IndexError)
  | Some m =>
      if norm then
        ([Percent "total cases:  " (col total_cases_col m);
          Percent "total deaths: " (col total_deaths_col m)], None)
      else
        ([Count "total cases:  " (col total_cases_col m);
          Count "total deaths: " (col total_deaths_col m)], None)
  end.

(** [for name in names: display(name)]: the loop ends at the first
    exception. *)
Fixpoint for_each (display : string -> run I) (names : list string)
  : run I :=
  match names with
  | [] => ([], None)
  | name :: rest =>
      match display name with
      | (written, Some e) => (written, Some e)
      | (written, None) =>
          let (more, e) := for_each display rest in
          ((written ++ more)%list, e)
      end
  end.

End Stats.

End Present.

Module StatesPresenter.

Import Pd Common States Present.
Local Open Scope string_scope.

(** The options of [covid-19-states.py] with the flag [--lines]. *)
Record popts : Type := POpts {
  base : opts;
  lines : bool
}.

Definition show_state_stats (o : popts) (df : list (mrow id_cols))
  (state : string) : run id_cols :=
  show_region_stats region (norm (base o)) df state.

(** [display_one_state]:
    [print(f'\n{state}')
     df3 = df[df['State'] == state]
     if opts['--lines']: print(df3)
     show_state_stats(df3, state)] *)
Definition display_one_state (o : popts) (df : list (mrow id_cols))
  (state : string) : run id_cols :=
  let df3 := filter (fun m => String.eqb (region m) state) df in
  let head := Text (newline ++ state)
              :: (if lines o then [Frame df3] else []) in
  let (stats, e) := show_state_stats o df3 state in
  ((head ++ stats)%list, e).

(** The branch of [test] that is taken without [--multi]:
    [for state in state_list: display_one_state(opts, df, state)] *)
Definition per_state (lim : nat) (o : popts) (df : list obs)
  (csv : list census) : run id_cols :=
  let '(state_list, df) := test lim (base o) df csv in
  for_each (display_one_state o df) state_list.

End StatesPresenter.

Module CountiesPresenter.

Import Pd Common Counties Present.
Local Open Scope string_scope.

(** The options of [covid-19-counties.py] with the flag [--lines]. *)
Record popts : Type := POpts {
  base : opts;
  lines : bool
}.

Definition show_county_stats (o : popts) (df : list (mrow id_cols))
  (county : string) : run id_cols :=
  show_region_stats region (norm (base o)) df county.

(** [display_one_county]:
    [df3 = df[df['County'] == county]
     print(f'\n{county} {df3.iloc[-1]["fips"]:8,}')
     if opts['--lines']: show_county_stats(opts, df3, county)] *)
Definition display_one_county (o : popts) (df : list (mrow id_cols))
  (county : string) : run id_cols :=
  let df3 := filter (fun m => String.eqb (region m) county) df in
  match iloc_last df3 with
  | None => ([], Some IndexError)
  | Some m =>
      let head :=
        Text (newline ++ county ++ " "
              ++ Fmt.format_8_comma (Fips (ids (fst m)))) in
      if lines o then
        let (stats, e) := show_county_stats o df3 county in
        (head :: stats, e)
      else ([head], None)
  end.

(** The branch of [test] that is taken without [--multi]:
    [for county in counties: display_one_county(opts, df, county)] *)
Definition per_county (lim : nat) (o : popts) (df : list obs)
  (csv : list census) : run id_cols :=
  let '(county_list, df) := test lim (base o) df csv in
  for_each (display_one_county o df) county_list.

End CountiesPresenter.

(* ================================================================== *)
(** ** The vocabulary of the further properties *)
(* ================================================================== *)

Module More.

Import Pd Common.
Local Open Scope string_scope.

(** The observation a row of the table of daily differences was made of. *)
Definition state_observed (r : States.drow) : States.obs :=
  States.Obs (States.Date (States.d_ids r)) (States.State (States.d_ids r))
             (States.Fips (States.d_ids r))
             (States.d_total_cases r) (States.d_total_deaths r).

Definition county_observed (r : Counties.drow) : Counties.obs :=
  Counties.Obs (Counties.Date (Counties.d_ids r))
               (Counties.County (Counties.d_ids r))
               (Counties.parent (Counties.d_ids r))
               (Some (Counties.Fips (Counties.d_ids r)))
               (Counties.d_total_cases r) (Counties.d_total_deaths r).

(** An observation with its numeric code filled in. *)
Definition county_filled (o : Counties.obs) : Counties.obs :=
  Counties.Obs (Counties.date o) (Counties.county o) (Counties.state o)
               (Some (Counties.fips_or_0 o))
               (Counties.cases o) (Counties.deaths o).

(** A float that is neither NaN nor infinite. *)
Definition finite (v : fval) : Prop := exists q, v = Fin q.

(** The shape of a row of the smoothed table: integer totals, and daily
    values that are both missing or both finite. *)
Definition smooth_shape (v : metrics) : Prop :=
  (exists c d, total_cases v = of_int c /\ total_deaths v = of_int d)
  /\ ((daily_cases v = NaN /\ daily_deaths v = NaN)
      \/ (finite (daily_cases v) /\ finite (daily_deaths v))).

(** The order of the identifying columns of the states' table. *)
Definition state_ids_le (a b : States.id_cols) : bool :=
  match String.compare (States.State a) (States.State b) with
  | Lt => true
  | Eq => (States.Date a <=? States.Date b)%Z
  | Gt => false
  end.

Definition county_ids_le (a b : Counties.id_cols) : bool :=
  match String.compare (Counties.parent a) (Counties.parent b) with
  | Lt => true
  | Gt => false
  | Eq =>
      match String.compare (Counties.County a) (Counties.County b) with
      | Lt => true
      | Gt => false
      | Eq => (Counties.Date a <=? Counties.Date b)%Z
      end
  end.

(** The same orders on the rows of the merged table. *)
Definition state_row_le (a b : mrow States.id_cols) : bool :=
  state_ids_le (ids (fst a)) (ids (fst b)).

Definition county_row_le (a b : mrow Counties.id_cols) : bool :=
  county_ids_le (ids (fst a)) (ids (fst b)).

(** The number of commas of a string. *)
Fixpoint commas (s : string) : nat :=
  match s with
  | EmptyString => O
  | String c r => if Ascii.eqb c ","%char then S (commas r) else commas r
  end.

(** A decimal digit. *)
Definition is_digit (c : ascii) : bool :=
  match Py.digit_val c with Some _ => true | None => false end.

(** A string of decimal digits: its value and its length are what
    [int()] reads, whatever follows. *)
Definition reads_as (ds : string) (n : Z) : Prop :=
  ds <> ""
  /\ Props.all_chars is_digit ds = true
  /\ forall (b : bool) (a : Z) (c : nat) (rest : string),
      Py.digits_acc b a c (ds ++ rest)
      = Py.digits_acc true (a * 10 ^ Z.of_nat (String.length ds) + n)
                      (c + String.length ds) rest.

(** Whether the population table has a row for a key. *)
Definition has_population {K : Type} (eqb : K -> K -> bool)
  (pops : list (K * Z)) (k : K) : bool :=
  existsb (fun p => eqb k (fst p)) pops.

End More.

(* ================================================================== *)
(** * Properties *)
(* ================================================================== *)

(** ** Strings: [strip] and [split] *)

Module PyFacts.

Import Py Props.
Local Open Scope string_scope.

Lemma append_nil_r (s : string) : s ++ "" = s.
Proof. induction s as [|c s IH]; simpl; [reflexivity | now rewrite IH]. Qed.

Lemma append_assoc (a b c : string) : (a ++ b) ++ c = a ++ (b ++ c).
Proof. induction a as [|x a IH]; simpl; [reflexivity | now rewrite IH]. Qed.

Lemma rev_onto_app (s acc : string) : rev_onto s acc = srev s ++ acc.
Proof.
  unfold srev. revert acc.
  induction s as [|c s IH]; intros acc; simpl.
  - reflexivity.
  - rewrite (IH (String c EmptyString)), (IH (String c acc)).
    now rewrite append_assoc.
Qed.

Lemma srev_cons (c : ascii) (s : string) :
  srev (String c s) = srev s ++ String c "".
Proof. unfold srev at 1. simpl. apply rev_onto_app. Qed.

Lemma srev_app (a b : string) : srev (a ++ b) = srev b ++ srev a.
Proof.
  induction a as [|c a IH]; simpl.
  - now rewrite append_nil_r.
  - now rewrite !srev_cons, IH, append_assoc.
Qed.

Lemma srev_involutive (s : string) : srev (srev s) = s.
Proof.
  induction s as [|c s IH]; [reflexivity|].
  now rewrite srev_cons, srev_app, IH.
Qed.

Lemma all_chars_app (p : ascii -> bool) (a b : string) :
  all_chars p (a ++ b) = all_chars p a && all_chars p b.
Proof.
  induction a as [|c a IH]; simpl; [reflexivity|].
  now rewrite IH, andb_assoc.
Qed.

Lemma all_chars_srev (p : ascii -> bool) (s : string) :
  all_chars p (srev s) = all_chars p s.
Proof.
  induction s as [|c s IH]; [reflexivity|].
  rewrite srev_cons, all_chars_app, IH. simpl.
  now rewrite andb_true_r, andb_comm.
Qed.

(** What [lstrip] removes is whitespace, and what it leaves does not start
    with whitespace. *)
Lemma lstrip_with_spec (sp : ascii -> bool) (s : string) :
  exists pre,
    s = pre ++ lstrip_with sp s
    /\ all_chars sp pre = true
    /\ starts_with sp (lstrip_with sp s) = false.
Proof.
  induction s as [|c s (pre & Hs & Hpre & Hst)]; simpl.
  - exists "". now repeat split.
  - destruct (sp c) eqn:Hc.
    + exists (String c pre). simpl. rewrite Hc, Hpre.
      repeat split; [now rewrite <- Hs | assumption].
    + exists "". simpl. now repeat split.
Qed.

Lemma starts_with_app (p : ascii -> bool) (a b : string) :
  a <> "" -> starts_with p (a ++ b) = starts_with p a.
Proof. destruct a; [congruence | reflexivity]. Qed.

Lemma strip_with_spec (sp : ascii -> bool) (s : string) :
  exists pre suf,
    s = pre ++ strip_with sp s ++ suf
    /\ all_chars sp pre = true
    /\ all_chars sp suf = true
    /\ starts_with sp (strip_with sp s) = false
    /\ ends_with sp (strip_with sp s) = false.
Proof.
  unfold strip_with, rstrip_with, ends_with.
  destruct (lstrip_with_spec sp s) as (pre & Hs & Hpre & Hst).
  set (u := lstrip_with sp s) in *.
  destruct (lstrip_with_spec sp (srev u)) as (suf' & Hu & Hsuf & Hend).
  set (w := lstrip_with sp (srev u)) in *.
  assert (Hu' : u = srev w ++ srev suf').
  { rewrite <- (srev_involutive u), Hu. apply srev_app. }
  exists pre, (srev suf').
  rewrite srev_involutive.
  repeat split.
  - now rewrite <- Hu'.
  - assumption.
  - now rewrite all_chars_srev.
  - destruct (srev w) eqn:Hw; [reflexivity|].
    rewrite <- (starts_with_app sp (String a s0) (srev suf')) by discriminate.
    now rewrite <- Hu'.
  - assumption.
Qed.

Lemma strip_trimmed (s : string) : trimmed_of (strip s) s.
Proof. apply strip_with_spec. Qed.

Lemma split_comma_not_nil (s : string) : split_comma s <> [].
Proof.
  induction s as [|c s IH]; simpl; [discriminate|].
  destruct (Ascii.eqb c ","); [discriminate|].
  destruct (split_comma s); [congruence | discriminate].
Qed.

Lemma split_comma_fields (s : string) : comma_fields s (split_comma s).
Proof.
  unfold comma_fields.
  split; [|split; [|apply split_comma_not_nil]].
  - induction s as [|c s IH]; [reflexivity|].
    simpl. destruct (Ascii.eqb_spec c ",") as [->|Hc].
    + pose proof (split_comma_not_nil s) as Hn.
      destruct (split_comma s) as [|t ts] eqn:E; [congruence|].
      simpl. simpl in IH. now rewrite IH.
    + pose proof (split_comma_not_nil s) as Hn.
      destruct (split_comma s) as [|t ts] eqn:E; [congruence|].
      simpl in *. destruct ts; simpl in *; now rewrite IH.
  - induction s as [|c s IH]; simpl.
    + constructor; [reflexivity | constructor].
    + destruct (Ascii.eqb c ",") eqn:Hc.
      * constructor; [reflexivity | assumption].
      * destruct (split_comma s) as [|t ts]; [|inversion IH; subst];
          constructor; try assumption; try constructor;
          unfold no_comma in *; simpl; rewrite Hc; simpl; auto.
Qed.

End PyFacts.

(** ** The Selector: the explicit list *)

Module ExplicitFacts.

Import Pd Common Props.
Local Open Scope string_scope.

Lemma get_region_list_no_int (lim : nat) {R : Type} (region : R -> string)
  (arg : string) (df : list R) (column : R -> fval) :
  Py.int lim arg = None ->
  get_region_list lim region arg df column = explicit_regions arg.
Proof. unfold get_region_list. now intros ->. Qed.

Lemma explicit_regions_trimmed (arg : string) :
  exists fields,
    comma_fields arg fields
    /\ Forall2 trimmed_of (explicit_regions arg) fields.
Proof.
  exists (Py.split_comma arg). split; [apply PyFacts.split_comma_fields|].
  unfold explicit_regions.
  induction (Py.split_comma arg) as [|t ts IH]; simpl; constructor.
  - apply PyFacts.strip_trimmed.
  - exact IH.
Qed.

(** C4.  When the region argument is not an integer literal, the Selector of
    either script returns the fields of the argument between its commas,
    each without the whitespace around it, in the order of the argument and
    whatever the table and the metric are.  The argument
    ["Texas, California"] gives [["Texas"; "California"]]. *)
Theorem selector_explicit_list :
  (forall (lim : nat) (arg : string),
      Py.int lim arg = None ->
      (forall m n df c,
          States.get_state_list lim (States.Opts m n arg) df c
          = map Py.strip (Py.split_comma arg))
      /\ (forall m n s df c,
             Counties.get_county_list lim (Counties.Opts arg m n s) df c
             = map Py.strip (Py.split_comma arg))
      /\ exists fields,
          comma_fields arg fields
          /\ Forall2 trimmed_of (map Py.strip (Py.split_comma arg)) fields)
  /\ (forall lim m n df c,
         States.get_state_list lim (States.Opts m n "Texas, California") df c
         = ["Texas"; "California"])
  /\ (forall lim m n s df c,
         Counties.get_county_list lim
           (Counties.Opts "Texas, California" m n s) df c
         = ["Texas"; "California"]).
Proof.
  split; [|split].
  - intros lim arg Hint. split; [|split].
    + intros. unfold States.get_state_list. simpl.
      now rewrite get_region_list_no_int.
    + intros. unfold Counties.get_county_list. simpl.
      now rewrite get_region_list_no_int.
    + apply explicit_regions_trimmed.
  - intros. unfold States.get_state_list. simpl.
    now rewrite get_region_list_no_int.
  - intros. unfold Counties.get_county_list. simpl.
    now rewrite get_region_list_no_int.
Qed.

Lemma selector_explicit_list_witness :
  Py.int 4300%nat "Santa Clara , Alameda,San Mateo" = None
  /\ forall m n s df c,
      Counties.get_county_list 4300%nat
        (Counties.Opts "Santa Clara , Alameda,San Mateo" m n s) df c
      = ["Santa Clara"; "Alameda"; "San Mateo"].
Proof.
  split; [reflexivity|].
  intros m n s df c.
  exact (proj1 (proj2 (proj1 selector_explicit_list 4300%nat
                         "Santa Clara , Alameda,San Mateo" eq_refl))
               m n s df c).
Defined.

Lemma int_zero (lim : nat) : Py.int lim "0" = Some 0%Z.
Proof. destruct lim; reflexivity. Qed.

(** C9.  The argument ["0"] is an integer literal, but its value is false
    for [if top_number:], so the Selector of either script takes the
    explicit-list branch and returns [["0"]], whatever the table and the
    metric are. *)
Theorem selector_zero_is_explicit :
  forall lim : nat,
    Py.int lim "0" = Some 0%Z
    /\ (forall m n df c,
           States.get_state_list lim (States.Opts m n "0") df c = ["0"])
    /\ (forall m n s df c,
           Counties.get_county_list lim (Counties.Opts "0" m n s) df c
           = ["0"]).
Proof.
  intros lim. split; [apply int_zero|].
  split; intros;
    unfold States.get_state_list, Counties.get_county_list,
           get_region_list; simpl;
    rewrite int_zero; reflexivity.
Qed.

End ExplicitFacts.

(** ** The Deriver: daily differences and their rolling average *)

Module DeriverFacts.

Import Pd Common Props Examples.
Local Open Scope string_scope.

Lemma diff_from_length (prev : Z) (l : list Z) :
  List.length (diff_from prev l) = List.length l.
Proof.
  revert prev. induction l as [|x l IH]; intros prev; simpl;
    [reflexivity | now rewrite IH].
Qed.

Lemma daily_of_length (l : list Z) :
  List.length (daily_of l) = List.length l.
Proof.
  unfold daily_of, fillna_int. rewrite length_map.
  destruct l; simpl; [reflexivity | now rewrite diff_from_length].
Qed.

(** The daily column starts with 0: only the first row of the whole table
    has no previous row. *)
Lemma daily_of_first (x : Z) (l : list Z) :
  exists rest, daily_of (x :: l) = 0%Z :: rest.
Proof. eexists. reflexivity. Qed.

Lemma diff_from_nth (prev : Z) (l : list Z) (i : nat) :
  (i < List.length l)%nat ->
  nth_error (diff_from prev l) i
  = Some (Some (nth i l 0 - nth i (prev :: l) 0)%Z).
Proof.
  revert prev i. induction l as [|x l IH]; intros prev i Hi; simpl in Hi.
  - lia.
  - destruct i as [|i]; [reflexivity|].
    simpl. rewrite IH by lia. reflexivity.
Qed.

(** Every other entry of the daily column is the difference between the
    cumulative value of its row and that of the row just before it in the
    table, of whichever region that row is. *)
Lemma daily_of_next (l : list Z) (i : nat) :
  (S i < List.length l)%nat ->
  nth (S i) (daily_of l) 0%Z = (nth (S i) l 0 - nth i l 0)%Z.
Proof.
  intros Hi. destruct l as [|x l]; simpl in Hi; [lia|].
  unfold daily_of, fillna_int. simpl.
  apply nth_error_nth.
  rewrite nth_error_map, diff_from_nth by lia.
  reflexivity.
Qed.

Lemma smooth_col_length (l : list Z) :
  List.length (smooth_col l) = List.length l.
Proof.
  unfold smooth_col, divide, rolling_sum.
  now rewrite !length_map, length_seq.
Qed.

(** The smoothed column: missing at the first six rows of the table, and
    from the seventh row on one seventh of the sum of the seven daily values
    ending at the row. *)
Lemma smooth_col_nth (l : list Z) (i : nat) :
  (i < List.length l)%nat ->
  nth i (smooth_col l) NaN
  = if (i <? 6)%nat then NaN
    else Fin (inject_Z (sum (firstn 7 (skipn (i - 6) l))) / 7).
Proof.
  intros Hi. unfold smooth_col, divide, rolling_sum.
  apply nth_error_nth.
  rewrite !nth_error_map, nth_error_seq.
  destruct (Nat.ltb_spec i (List.length l)) as [_|]; [|lia].
  simpl.
  change (S i <? 7)%nat with (i <? 6)%nat.
  destruct (i <? 6)%nat; reflexivity.
Qed.

(** C1.  The daily differences are taken over the whole sorted table, not
    within each region.  A region alone in the table, with cumulative
    cases 0, 0, 3, 3, 7, gets the daily cases 0, 0, 3, 0, 4; the same region
    after another region whose last cumulative count is 4 gets -4 in its
    first row instead of 0.  Both scripts do so. *)
Theorem daily_delta_crosses_regions :
  state_daily_cases "Texas" (States.derive texas_only) = [0; 0; 3; 0; 4]%Z
  /\ state_daily_cases "Texas" (States.derive alabama_texas)
     = [-4; 0; 3; 0; 4]%Z
  /\ county_daily_cases "Bexar" (Counties.derive bexar_only)
     = [0; 0; 3; 0; 4]%Z
  /\ county_daily_cases "Bexar" (Counties.derive anderson_bexar)
     = [-4; 0; 3; 0; 4]%Z.
Proof. repeat split; vm_compute; reflexivity. Qed.

(** C2.  The rolling average is taken over the whole sorted table, not
    within each region.  The first region of the table has no smoothed
    value in its first six rows, and a region has the mean of its own last
    seven daily values from its seventh row on; but the first six rows of a
    later region hold the mean of a window that reaches into the region
    before it, where the claim wants them undefined.  Both scripts do
    so. *)
Theorem rolling_average_crosses_regions :
  state_smoothed_cases "Alabama" (States.smooth (States.derive two_weeks))
  = [NaN; NaN; NaN; NaN; NaN; NaN; Fin (42 # 7)]
  /\ state_smoothed_cases "Texas" (States.smooth (States.derive two_weeks))
     = [Fin (-7 # 7); Fin (-14 # 7); Fin (-21 # 7); Fin (-28 # 7);
        Fin (-35 # 7); Fin (-42 # 7); Fin (-49 # 7); Fin (7 # 7)]
  /\ county_smoothed_cases "Bexar"
       (Counties.smooth (Counties.derive two_weeks_counties))
     = [Fin (-7 # 7); Fin (-14 # 7); Fin (-21 # 7); Fin (-28 # 7);
        Fin (-35 # 7); Fin (-42 # 7); Fin (-49 # 7); Fin (7 # 7)].
Proof. repeat split; vm_compute; reflexivity. Qed.

End DeriverFacts.

(** ** The Population Joiner and the Normalizer *)

Module JoinFacts.

Import Pd Common Props Examples.
Local Open Scope string_scope.

Lemma merge_In {R K : Type} (eqb : K -> K -> bool) (key : R -> K)
  (left : list R) (right : list (K * Z)) (r : R) (p : Z) :
  (forall a b, eqb a b = true <-> a = b) ->
  In (r, p) (merge eqb key left right)
  <-> In r left /\ In (key r, p) right.
Proof.
  intros Heqb. unfold merge. rewrite in_flat_map. split.
  - intros (x & Hx & Hin). apply in_map_iff in Hin.
    destruct Hin as ([k q] & Heq & Hin). simpl in Heq.
    injection Heq as -> ->.
    apply filter_In in Hin. destruct Hin as [Hin Hk]. simpl in Hk.
    apply Heqb in Hk. subst k. now split.
  - intros [Hl Hr]. exists r. split; [assumption|].
    apply in_map_iff. exists (key r, p). split; [reflexivity|].
    apply filter_In. split; [assumption|]. simpl. now apply Heqb.
Qed.

(** C6.  The merge is an inner join on the region identifier: a row with a
    population is in the merged table exactly when the row is in the
    derived table (for the counties: of the requested state) and the
    population table has that population for the row's identifier (the
    state name, or the county's numeric code).  So every row with a match
    is kept, with its population, and a row without a match is not in the
    result. *)
Theorem population_join_is_inner :
  (forall m s df csv r p,
      In (r, p) (States.joined (States.Opts m false s) df csv)
      <-> In r (States.smooth (States.derive df))
          /\ In (States.State (ids r), p) (States.get_populations csv))
  /\ (forall c m s df csv r p,
         In (r, p) (Counties.joined (Counties.Opts c m false s) df csv)
         <-> (In r (Counties.smooth (Counties.derive df))
              /\ Counties.parent (ids r) = s)
             /\ In (Counties.Fips (ids r), p)
                   (Counties.get_populations csv)).
Proof.
  split.
  - intros. unfold States.joined. simpl.
    apply (merge_In String.eqb (fun x => States.State (ids x))).
    apply String.eqb_eq.
  - intros. unfold Counties.joined. simpl.
    rewrite (merge_In Z.eqb (fun x => Counties.Fips (ids x)))
      by apply Z.eqb_eq.
    rewrite filter_In, String.eqb_eq. reflexivity.
Qed.

Lemma normalize_step_percent {I : Type} (df : list (mrow I)) (c : column) :
  normalize_step df c
  = map (fun m =>
           (Row (ids (fst m))
                (set_col c (percent_of (col c m) (population m))
                         (vals (fst m))),
            snd m))
        df.
Proof.
  unfold normalize_step, assign. rewrite map_map. apply map_ext.
  intros [[i v] p]. unfold percent_of, col, population.
  destruct c, v; reflexivity.
Qed.

Lemma normalize_percent {I : Type} (df : list (mrow I)) :
  normalize df = map percent_row df.
Proof.
  unfold normalize, norm_columns.
  cbn [fold_left].
  rewrite !normalize_step_percent, !map_map.
  apply map_ext.
  intros [[i [tc td dc dd]] p]. reflexivity.
Qed.

(** C5.  With [--norm], each of the four metric columns of every row of the
    merged table is replaced by its value divided by the row's population
    and multiplied by 100, and the table this is done to is the merged
    table of smoothed rows: the rolling average was taken before, on the
    raw daily counts. *)
Theorem normalization_after_smoothing :
  (forall (I : Type) (df : list (mrow I)), normalize df = map percent_row df)
  /\ (forall (q : Q) (p : Z),
         p <> 0%Z -> percent_of (Fin q) p = Fin (q / inject_Z p * 100))
  /\ (forall m s df csv,
         States.joined (States.Opts m true s) df csv
         = map percent_row
               (merge String.eqb (fun r => States.State (ids r))
                      (States.smooth (States.derive df))
                      (States.get_populations csv)))
  /\ (forall c m s df csv,
         Counties.joined (Counties.Opts c m true s) df csv
         = map percent_row
               (merge Z.eqb (fun r => Counties.Fips (ids r))
                      (filter (fun r => String.eqb (Counties.parent (ids r)) s)
                              (Counties.smooth (Counties.derive df)))
                      (Counties.get_populations csv))).
Proof.
  split; [intros; apply normalize_percent|].
  split.
  - intros q p Hp. unfold percent_of, div_int.
    destruct (Z.eqb_spec p 0); [contradiction | reflexivity].
  - split; intros; unfold States.joined, Counties.joined; simpl;
      apply normalize_percent.
Qed.

Lemma normalization_after_smoothing_witness :
  (10000 <> 0)%Z
  /\ percent_of (Fin 150) 10000 = Fin (150 / inject_Z 10000 * 100).
Proof.
  split; [discriminate|].
  apply (proj1 (proj2 normalization_after_smoothing) 150%Q 10000%Z).
  discriminate.
Defined.

Lemma int_two (lim : nat) : Py.int lim "2" = Some 2%Z.
Proof. destruct lim; reflexivity. Qed.

(** C8.  Region A has 100 cases and a population of 1000, region B has 150
    cases and a population of 10000.  Asked for the top 2 by total cases,
    either script lists B before A on the raw counts and A before B with
    [--norm]. *)
Theorem normalization_changes_ranking :
  forall lim : nat,
    fst (States.test lim (States.Opts None false "2")
           a_b_states a_b_state_pops) = ["B"; "A"]
    /\ fst (States.test lim (States.Opts None true "2")
              a_b_states a_b_state_pops) = ["A"; "B"]
    /\ fst (Counties.test lim (Counties.Opts "2" None false "California")
              a_b_counties a_b_county_pops) = ["B"; "A"]
    /\ fst (Counties.test lim (Counties.Opts "2" None true "California")
              a_b_counties a_b_county_pops) = ["A"; "B"].
Proof.
  intros lim.
  unfold States.test, Counties.test, States.get_state_list,
    Counties.get_county_list, get_region_list.
  cbn [fst States.states Counties.counties].
  rewrite !int_two.
  repeat split; vm_compute; reflexivity.
Qed.

End JoinFacts.

(** ** The noise filter *)

Module FilterFacts.

Import Pd Common Props Examples.
Local Open Scope string_scope.

Lemma ge_not_nan (v : fval) (t : Q) : ge v t = true -> isna v = false.
Proof. destruct v; simpl; congruence. Qed.

Lemma ge_below (v : fval) (t : Q) : ge v t = negb (isna v || below v t).
Proof. destruct v; simpl; try reflexivity. now rewrite negb_involutive. Qed.

Lemma noise_filter_threshold {I : Type} (norm : bool) (df : list (mrow I)) :
  noise_filter norm df
  = filter (fun m => ge (col daily_cases_col m) (noise_threshold norm)) df.
Proof. destruct norm; reflexivity. Qed.

(** C7, as stated, fails.  The table of a single first day has one row,
    whose smoothed daily cases are NaN; NaN is not below 2, yet the row is
    dropped. *)
Lemma noise_filter_drops_undefined :
  noise_filter false
    (States.joined (States.Opts None false "Texas") first_day texas_pop)
  <> not_below_threshold false
       (States.joined (States.Opts None false "Texas") first_day texas_pop).
Proof. vm_compute. discriminate. Qed.

(** C7, amended.  The table given to the Presenter is the merged (and
    possibly normalised) table without the rows whose daily cases are NaN
    or below the threshold, 2 without [--norm] and 0 with it; the other
    rows are kept as they are, in their order. *)
Theorem noise_filter_keeps_defined_at_threshold :
  (forall (I : Type) (norm : bool) (df : list (mrow I)),
      noise_filter norm df
      = filter (fun m =>
                  negb (isna (col daily_cases_col m)
                        || below (col daily_cases_col m)
                                 (if norm then 0%Q else 2%Q)))
               df)
  /\ (forall lim o df csv,
         snd (States.test lim o df csv)
         = noise_filter (States.norm o) (States.joined o df csv))
  /\ (forall lim o df csv,
         snd (Counties.test lim o df csv)
         = noise_filter (Counties.norm o) (Counties.joined o df csv)).
Proof.
  split; [|split; reflexivity].
  intros I norm df. rewrite noise_filter_threshold.
  apply filter_ext. intros m. rewrite ge_below.
  destruct norm; reflexivity.
Qed.

Lemma percent_of_nan (v : fval) (pop : Z) :
  isna (percent_of v pop) = false -> isna v = false.
Proof. destruct v; simpl; congruence. Qed.

Lemma noise_filter_In {I : Type} (norm : bool) (df : list (mrow I))
  (m : mrow I) :
  In m (noise_filter norm df) ->
  In m df /\ isna (col daily_cases_col m) = false.
Proof.
  rewrite noise_filter_threshold, filter_In.
  intros [Hin Hge]. split; [assumption|]. eapply ge_not_nan, Hge.
Qed.

(** A row of the merged table, normalised or not, comes from a row of the
    smoothed table with the same identifying columns; if its daily cases
    are defined, so were the smoothed ones. *)
Lemma joined_origin {I K : Type} (eqb : K -> K -> bool) (key : row I -> K)
  (norm : bool) (df : list (row I)) (pops : list (K * Z)) (m : mrow I) :
  In m (if norm then normalize (merge eqb key df pops)
        else merge eqb key df pops) ->
  isna (col daily_cases_col m) = false ->
  exists r, In r df /\ ids (fst m) = ids r
            /\ isna (daily_cases (vals r)) = false.
Proof.
  intros Hin Hna.
  assert (Hfst : forall x, In x (merge eqb key df pops) -> In (fst x) df).
  { intros x Hx. unfold merge in Hx. apply in_flat_map in Hx.
    destruct Hx as (r & Hr & Hx). apply in_map_iff in Hx.
    destruct Hx as (q & <- & _). exact Hr. }
  destruct norm.
  - rewrite JoinFacts.normalize_percent in Hin. apply in_map_iff in Hin.
    destruct Hin as (x & <- & Hx). exists (fst x).
    split; [now apply Hfst|]. split; [reflexivity|].
    unfold col in Hna. simpl in Hna. eapply percent_of_nan, Hna.
  - exists (fst m). split; [now apply Hfst|]. now split.
Qed.

(** C10.  Every row of the table given to the Presenter has defined daily
    cases, with and without [--norm], and comes from a row of the smoothed
    table whose daily cases were defined: a row whose smoothed daily cases
    are NaN does not pass the filter.  Both scripts do so. *)
Theorem presented_rows_are_defined :
  (forall lim o df csv,
      Forall (fun m =>
                isna (col daily_cases_col m) = false
                /\ exists r, In r (States.smooth (States.derive df))
                             /\ ids (fst m) = ids r
                             /\ isna (daily_cases (vals r)) = false)
             (snd (States.test lim o df csv)))
  /\ (forall lim o df csv,
         Forall (fun m =>
                   isna (col daily_cases_col m) = false
                   /\ exists r, In r (Counties.smooth (Counties.derive df))
                                /\ ids (fst m) = ids r
                                /\ isna (daily_cases (vals r)) = false)
                (snd (Counties.test lim o df csv)))
  /\ ge NaN 2 = false /\ ge NaN 0 = false.
Proof.
  split; [|split; [|split; reflexivity]].
  - intros lim o df csv. apply Forall_forall. intros m Hm.
    unfold States.test in Hm. cbn [snd] in Hm.
    apply noise_filter_In in Hm. destruct Hm as [Hin Hna].
    split; [assumption|].
    unfold States.joined in Hin.
    eapply joined_origin; eassumption.
  - intros lim o df csv. apply Forall_forall. intros m Hm.
    unfold Counties.test in Hm. cbn [snd] in Hm.
    apply noise_filter_In in Hm. destruct Hm as [Hin Hna].
    split; [assumption|].
    unfold Counties.joined in Hin.
    destruct (joined_origin _ _ _ _ _ _ Hin Hna) as (r & Hr & Hid & Hd).
    apply filter_In in Hr. exists r. tauto.
Qed.

End FilterFacts.

(** ** Sorting and deduplication *)

Module SortFacts.

Import Pd Common Props.

Lemma fle_refl (a : fval) : fle a a = true.
Proof.
  destruct a; simpl; try reflexivity.
  apply Qle_bool_iff, Qle_refl.
Qed.

Lemma fle_total (a b : fval) : fle a b = false -> fle b a = true.
Proof.
  destruct a, b; simpl; try congruence.
  intros H. apply Qle_bool_iff, Qlt_le_weak, Qnot_le_lt.
  intros Hle. apply Qle_bool_iff in Hle. congruence.
Qed.

Lemma fle_trans (a b c : fval) :
  fle a b = true -> fle b c = true -> fle a c = true.
Proof.
  destruct a, b, c; simpl; try congruence.
  rewrite !Qle_bool_iff. apply Qle_trans.
Qed.

Lemma fle_nan_least (a : fval) : fle NaN a = true.
Proof. reflexivity. Qed.

(** *** The insertion sort *)

Section Insertion.

Context {A : Type}.
Variable leb : A -> A -> bool.
Hypothesis leb_total : forall x y, leb x y = false -> leb y x = true.
Hypothesis leb_trans :
  forall x y z, leb x y = true -> leb y z = true -> leb x z = true.

Lemma insert_sorted_perm (x : A) (l : list A) :
  Permutation (insert_sorted leb x l) (x :: l).
Proof.
  induction l as [|y l IH]; simpl.
  - apply Permutation_refl.
  - destruct (leb x y).
    + apply Permutation_refl.
    + eapply perm_trans; [apply perm_skip, IH | apply perm_swap].
Qed.

Lemma stable_sort_perm (l : list A) : Permutation (stable_sort leb l) l.
Proof.
  induction l as [|x l IH]; simpl.
  - constructor.
  - eapply perm_trans; [apply insert_sorted_perm | now apply perm_skip].
Qed.

Lemma insert_sorted_strongly (x : A) (l : list A) :
  StronglySorted (holds leb) l ->
  StronglySorted (holds leb) (insert_sorted leb x l).
Proof.
  induction 1 as [|y l Hs IH Hall]; simpl.
  - repeat constructor.
  - destruct (leb x y) eqn:Hxy.
    + constructor; [now constructor|].
      constructor; [exact Hxy|].
      eapply Forall_impl; [|exact Hall].
      intros z Hz. eapply leb_trans; eassumption.
    + constructor; [exact IH|].
      apply Forall_forall. intros z Hz.
      apply (Permutation_in _ (insert_sorted_perm x l)) in Hz.
      destruct Hz as [<-|Hz].
      * now apply leb_total.
      * rewrite Forall_forall in Hall. now apply Hall.
Qed.

Lemma stable_sort_strongly (l : list A) :
  StronglySorted (holds leb) (stable_sort leb l).
Proof.
  induction l as [|x l IH]; simpl.
  - constructor.
  - now apply insert_sorted_strongly.
Qed.

End Insertion.

(** *** Strongly sorted lists *)

Section Sorted.

Context {A : Type}.
Variable rel : A -> A -> Prop.

Lemma strongly_app (l1 l2 : list A) :
  StronglySorted rel l1 -> StronglySorted rel l2 ->
  (forall x y, In x l1 -> In y l2 -> rel x y) ->
  StronglySorted rel (l1 ++ l2).
Proof.
  intros H1 H2 H12. induction H1 as [|x l1 Hs IH Hall]; simpl.
  - exact H2.
  - constructor.
    + apply IH. intros a b Ha Hb. apply H12; [now right | assumption].
    + apply Forall_app. split; [exact Hall|].
      apply Forall_forall. intros y Hy. apply H12; [now left | assumption].
Qed.

Lemma strongly_app_inv (l1 l2 : list A) :
  StronglySorted rel (l1 ++ l2) ->
  StronglySorted rel l1
  /\ forall x y, In x l1 -> In y l2 -> rel x y.
Proof.
  induction l1 as [|a l1 IH]; simpl; intros H.
  - split; [constructor | intros x y []].
  - inversion H as [|? ? Hs Hall]; subst.
    destruct (IH Hs) as [Hs1 H12].
    apply Forall_app in Hall. destruct Hall as [Ha1 Ha2].
    split; [now constructor|].
    intros x y [<-|Hx] Hy.
    + rewrite Forall_forall in Ha2. now apply Ha2.
    + now apply H12.
Qed.

Lemma strongly_firstn (n : nat) (l : list A) :
  StronglySorted rel l -> StronglySorted rel (firstn n l).
Proof.
  intros H. rewrite <- (firstn_skipn n l) in H.
  now apply strongly_app_inv in H.
Qed.

End Sorted.

Lemma strongly_map {A B : Type} (rel : A -> A -> Prop) (rel' : B -> B -> Prop)
  (f : A -> B) (l : list A) :
  (forall x y, In x l -> In y l -> rel x y -> rel' (f x) (f y)) ->
  StronglySorted rel l -> StronglySorted rel' (map f l).
Proof.
  intros Hf H. induction H as [|x l Hs IH Hall]; simpl.
  - constructor.
  - constructor.
    + apply IH. intros a b Ha Hb. apply Hf; now right.
    + apply Forall_forall. intros y Hy. apply in_map_iff in Hy.
      destruct Hy as (z & <- & Hz).
      rewrite Forall_forall in Hall.
      apply Hf; [now left | now right | now apply Hall].
Qed.

(** *** [sort_values] in descending order *)

Section SortValues.

Context {R : Type}.
Variable column : R -> fval.

Lemma filter_split_perm (f : R -> bool) (l : list R) :
  Permutation (filter (fun r => negb (f r)) l ++ filter f l) l.
Proof.
  induction l as [|x l IH]; simpl.
  - constructor.
  - destruct (f x); simpl.
    + apply Permutation_sym. eapply perm_trans.
      * apply perm_skip, Permutation_sym, IH.
      * apply Permutation_middle.
    + now apply perm_skip.
Qed.

Lemma sort_values_desc_perm (df : list R) :
  Permutation (sort_values_desc column df) df.
Proof.
  unfold sort_values_desc.
  eapply perm_trans; [|apply (filter_split_perm (fun r => isna (column r)))].
  apply Permutation_app_tail, stable_sort_perm.
Qed.

Lemma sort_values_desc_sorted (df : list R) :
  StronglySorted (desc column) (sort_values_desc column df).
Proof.
  unfold sort_values_desc. apply strongly_app.
  - apply (stable_sort_strongly (fun x y => fle (column y) (column x))).
    + intros x y. apply fle_total.
    + intros x y z Hxy Hyz. eapply fle_trans; eassumption.
  - induction df as [|x df IH]; simpl; [constructor|].
    destruct (isna (column x)) eqn:Hx; [|exact IH].
    constructor; [exact IH|].
    apply Forall_forall. intros y Hy. apply filter_In in Hy.
    unfold desc. destruct Hy as [_ Hy].
    destruct (column y); try discriminate. reflexivity.
  - intros x y _ Hy. apply filter_In in Hy. destruct Hy as [_ Hy].
    unfold desc. destruct (column y); try discriminate. reflexivity.
Qed.

End SortValues.

End SortFacts.

(** ** The Selector: the top N *)

Module TopFacts.

Import Pd Common Props SortFacts Examples.
Local Open Scope string_scope.

Lemma NoDup_map_eq {A B : Type} (f : A -> B) (l : list A) (a b : A) :
  NoDup (map f l) -> In a l -> In b l -> f a = f b -> a = b.
Proof.
  induction l as [|x l IH]; simpl; intros Hnd Ha Hb Hf; [contradiction|].
  inversion Hnd as [|? ? Hx Hnd']; subst.
  destruct Ha as [<-|Ha], Hb as [<-|Hb].
  - reflexivity.
  - exfalso. apply Hx. rewrite Hf. now apply in_map.
  - exfalso. apply Hx. rewrite <- Hf. now apply in_map.
  - now apply IH.
Qed.

Lemma In_firstn {A : Type} (n : nat) (l : list A) (x : A) :
  In x (firstn n l) -> In x l.
Proof.
  intros H. rewrite <- (firstn_skipn n l). apply in_or_app. now left.
Qed.

Section Dedup.

Context {R : Type}.
Variable key : R -> string.

Lemma seen_In (k : string) (seen : list string) :
  existsb (String.eqb k) seen = true <-> In k seen.
Proof.
  rewrite existsb_exists. split.
  - intros (y & Hy & Heq). apply String.eqb_eq in Heq. now subst.
  - intros H. exists k. split; [assumption | apply String.eqb_refl].
Qed.

Lemma dedup_In (seen : list string) (l : list R) (x : R) :
  In x (drop_duplicates_from key seen l) ->
  In x l /\ ~ In (key x) seen.
Proof.
  revert seen. induction l as [|r l IH]; intros seen; simpl; [tauto|].
  destruct (existsb (String.eqb (key r)) seen) eqn:Hs.
  - intros H. apply IH in H. tauto.
  - intros [<-|H].
    + split; [now left|]. rewrite <- seen_In. congruence.
    + apply IH in H. simpl in H. tauto.
Qed.

Lemma dedup_NoDup (seen : list string) (l : list R) :
  NoDup (map key (drop_duplicates_from key seen l)).
Proof.
  revert seen. induction l as [|r l IH]; intros seen; simpl.
  - constructor.
  - destruct (existsb (String.eqb (key r)) seen); [apply IH|].
    simpl. constructor; [|apply IH].
    intros Hin. apply in_map_iff in Hin. destruct Hin as (x & Hk & Hx).
    apply dedup_In in Hx. destruct Hx as [_ Hx].
    apply Hx. left. now symmetry.
Qed.

Lemma dedup_sorted (rel : R -> R -> Prop) (seen : list string)
  (l : list R) :
  StronglySorted rel l ->
  StronglySorted rel (drop_duplicates_from key seen l).
Proof.
  intros H. revert seen.
  induction H as [|r l Hs IH Hall]; intros seen; simpl.
  - constructor.
  - destruct (existsb (String.eqb (key r)) seen); [apply IH|].
    constructor; [apply IH|].
    apply Forall_forall. intros x Hx. apply dedup_In in Hx.
    rewrite Forall_forall in Hall. now apply Hall.
Qed.

(** In a sorted table every row is represented, after deduplication, by
    a row of its region that stands before it. *)
Lemma dedup_leader (rel : R -> R -> Prop) (seen : list string)
  (l : list R) (x : R) :
  (forall a, rel a a) ->
  StronglySorted rel l ->
  In x l -> ~ In (key x) seen ->
  exists d, In d (drop_duplicates_from key seen l)
            /\ key d = key x /\ rel d x.
Proof.
  intros Hrefl H. revert seen.
  induction H as [|r l Hs IH Hall]; intros seen Hx Hseen; simpl in *.
  - contradiction.
  - destruct (existsb (String.eqb (key r)) seen) eqn:Hr.
    + apply seen_In in Hr.
      destruct Hx as [->|Hx]; [contradiction|].
      now apply IH.
    + destruct Hx as [->|Hx].
      * exists x. split; [now left | now split].
      * destruct (String.eqb_spec (key r) (key x)) as [Heq|Hne].
        -- exists r. split; [now left|]. split; [assumption|].
           rewrite Forall_forall in Hall. now apply Hall.
        -- destruct (IH (key r :: seen) Hx) as (d & Hd & Hk & Hrel).
           { simpl. tauto. }
           exists d. split; [now right | now split].
Qed.

End Dedup.

Section Highest.

Context {R : Type}.
Variable region : R -> string.
Variable column : R -> fval.

Lemma fmax_upper (l : list fval) (v : fval) :
  In v l -> fle v (fold_right fmax NaN l) = true.
Proof.
  induction l as [|a l IH]; simpl; [contradiction|].
  unfold fmax at 1.
  destruct (fle a (fold_right fmax NaN l)) eqn:Ha; intros [<-|Hv].
  - exact Ha.
  - now apply IH.
  - apply fle_refl.
  - eapply fle_trans; [now apply IH | now apply fle_total].
Qed.

Lemma fmax_attained (l : list fval) :
  fold_right fmax NaN l = NaN \/ In (fold_right fmax NaN l) l.
Proof.
  induction l as [|a l IH]; simpl; [now left|].
  set (m := fold_right fmax NaN l) in *.
  unfold fmax. destruct (fle a m); [|right; now left].
  destruct IH as [IH|IH]; [now left | right; now right].
Qed.

Lemma highest_upper (df : list R) (x : R) :
  In x df -> fle (column x) (highest region column df (region x)) = true.
Proof.
  intros Hx. unfold highest, rows_of. apply fmax_upper.
  apply in_map, filter_In. split; [assumption | apply String.eqb_refl].
Qed.

Lemma highest_attained (df : list R) (r : string) :
  highest region column df r = NaN
  \/ exists x, In x df /\ region x = r
               /\ highest region column df r = column x.
Proof.
  unfold highest, rows_of.
  destruct (fmax_attained
              (map column
                   (filter (fun x => String.eqb (region x) r) df)))
    as [H|H]; [now left | right].
  apply in_map_iff in H. destruct H as (x & Hx & Hin).
  apply filter_In in Hin. destruct Hin as [Hin Hr].
  apply String.eqb_eq in Hr. exists x. now repeat split.
Qed.

End Highest.

Section Top.

Context {R : Type}.
Variable region : R -> string.
Variable column : R -> fval.
Variable df : list R.

Lemma deduped_sorted : StronglySorted (desc column) (ranked region column df).
Proof. apply dedup_sorted, sort_values_desc_sorted. Qed.

Lemma deduped_NoDup : NoDup (map region (ranked region column df)).
Proof. apply dedup_NoDup. Qed.

Lemma deduped_In (d : R) : In d (ranked region column df) -> In d df.
Proof.
  intros H. apply dedup_In in H. destruct H as [H _].
  eapply Permutation_in; [apply sort_values_desc_perm | exact H].
Qed.

Lemma deduped_leader (x : R) :
  In x df ->
  exists d, In d (ranked region column df) /\ region d = region x
            /\ fle (column x) (column d) = true.
Proof.
  intros Hx.
  apply (dedup_leader region (desc column) [] (sort_values_desc column df)).
  - intros a. apply fle_refl.
  - apply sort_values_desc_sorted.
  - eapply Permutation_in;
      [apply Permutation_sym, sort_values_desc_perm | exact Hx].
  - intros [].
Qed.

(** The row kept for a region carries the highest value of the region. *)
Lemma deduped_highest (d : R) :
  In d (ranked region column df) ->
  fle (highest region column df (region d)) (column d) = true
  /\ fle (column d) (highest region column df (region d)) = true.
Proof.
  intros Hd. split.
  - destruct (highest_attained region column df (region d))
      as [->|(x & Hx & Hr & ->)]; [reflexivity|].
    destruct (deduped_leader x Hx) as (d' & Hd' & Hr' & Hle).
    assert (d' = d) as ->.
    { eapply NoDup_map_eq; [apply deduped_NoDup | | | congruence];
        assumption. }
    exact Hle.
  - apply highest_upper. now apply deduped_In.
Qed.

Lemma deduped_regions (r : string) :
  In r (map region (ranked region column df)) <-> In r (map region df).
Proof.
  split; intros H; apply in_map_iff in H; destruct H as (x & <- & Hx).
  - apply in_map. now apply deduped_In.
  - destruct (deduped_leader x Hx) as (d & Hd & <- & _). now apply in_map.
Qed.

Lemma deduped_descending :
  descending (highest region column df) (map region (ranked region column df)).
Proof.
  unfold descending.
  apply (strongly_map (desc column)); [|apply deduped_sorted].
  intros x y Hx Hy Hxy. unfold desc in Hxy.
  destruct (deduped_highest x Hx) as [_ Hx2].
  destruct (deduped_highest y Hy) as [Hy1 _].
  eapply fle_trans; [exact Hy1|].
  eapply fle_trans; [exact Hxy | exact Hx2].
Qed.

Lemma deduped_length :
  List.length (map region (ranked region column df)) = List.length (regions region df).
Proof.
  apply Permutation_length, NoDup_Permutation.
  - apply deduped_NoDup.
  - apply NoDup_nodup.
  - intros r. unfold regions. rewrite nodup_In. apply deduped_regions.
Qed.

(** The top-N branch, for a positive N: as many regions as asked for, or
    all of them if there are fewer, each once, in descending order of the
    highest value each takes over its rows, and none left out that beats
    one listed. *)
Lemma top_regions_top_by (n : Z) :
  (0 < n)%Z ->
  top_by region (highest region column df) df
         (Nat.min (Z.to_nat n) (List.length (regions region df)))
         (top_regions region n df column).
Proof.
  intros Hn. unfold top_regions, Py.slice_to.
  destruct (Z.leb_spec 0 n) as [_|]; [|lia].
  fold (ranked region column df).
  set (k := Z.to_nat n). set (names := map region (ranked region column df)).
  pose proof deduped_descending as Hdesc. fold names in Hdesc.
  pose proof deduped_NoDup as Hnd. fold names in Hnd.
  unfold top_by. repeat split.
  - rewrite <- (firstn_skipn k names) in Hnd.
    now apply NoDup_app_remove_r in Hnd.
  - intros r Hr. apply In_firstn in Hr. now apply deduped_regions.
  - now apply strongly_firstn.
  - intros r r' Hr Hr' Hout.
    apply deduped_regions in Hr'. fold names in Hr'.
    rewrite <- (firstn_skipn k names) in Hr', Hdesc.
    apply in_app_or in Hr'. destruct Hr' as [Hr'|Hr']; [contradiction|].
    apply strongly_app_inv in Hdesc. destruct Hdesc as [_ Hdesc].
    now apply Hdesc.
  - rewrite length_firstn. unfold names. now rewrite deduped_length.
Qed.

End Top.

Lemma int_one (lim : nat) : Py.int lim "1" = Some 1%Z.
Proof. destruct lim; reflexivity. Qed.

Lemma int_three (lim : nat) : Py.int lim "3" = Some 3%Z.
Proof. destruct lim; reflexivity. Qed.

(** C3, as stated, fails.  In a table where the daily cases of A fall from
    10 to 1 and those of B rise from 4 to 5, the region with the highest
    latest daily cases is B, but the Selector asked for the top 1 returns A;
    and asked for the top 3 it returns two regions, not three. *)
Lemma selector_top_is_not_by_latest :
  ~ top_by States.region
      (latest States.region (col daily_cases_col) falling_rising)
      falling_rising 1
      (States.get_state_list 4300 (States.Opts (Some "c") false "1")
         falling_rising daily_cases_col)
  /\ ~ top_by States.region
         (latest States.region (col daily_cases_col) falling_rising)
         falling_rising 3
         (States.get_state_list 4300 (States.Opts (Some "c") false "3")
            falling_rising daily_cases_col).
Proof.
  split.
  - intros (_ & _ & _ & Hbeat & _).
    specialize (Hbeat "A" "B").
    assert (Hf : fle (latest States.region (col daily_cases_col)
                        falling_rising "B")
                     (latest States.region (col daily_cases_col)
                        falling_rising "A") = false)
      by (vm_compute; reflexivity).
    rewrite Hbeat in Hf; [discriminate | | |].
    + vm_compute. now left.
    + vm_compute. tauto.
    + vm_compute. intros [H|[]]. discriminate H.
  - intros (_ & _ & _ & _ & Hlen).
    vm_compute in Hlen. discriminate Hlen.
Qed.

(** C3, amended.  For an argument that is the literal of a positive integer
    N, the Selector of either script returns min(N, number of regions of
    the table) regions of the table, each once, in descending order of the
    highest value the chosen metric takes over all rows of the region (NaN
    ranking lowest), and no region left out has a higher such value than a
    listed one. *)
Theorem selector_top_n_by_highest :
  forall (lim : nat) (arg : string) (n : Z),
    Py.int lim arg = Some n -> (0 < n)%Z ->
    (forall m nrm df c,
        top_by States.region (highest States.region (col c) df) df
               (Nat.min (Z.to_nat n)
                        (List.length (regions States.region df)))
               (States.get_state_list lim (States.Opts m nrm arg) df c))
    /\ (forall m nrm s df c,
           top_by Counties.region (highest Counties.region (col c) df) df
                  (Nat.min (Z.to_nat n)
                           (List.length (regions Counties.region df)))
                  (Counties.get_county_list lim
                     (Counties.Opts arg m nrm s) df c)).
Proof.
  intros lim arg n Hint Hn.
  assert (Hz : (n =? 0)%Z = false) by (apply Z.eqb_neq; lia).
  split; intros;
    unfold States.get_state_list, Counties.get_county_list, get_region_list;
    simpl; rewrite Hint, Hz; now apply top_regions_top_by.
Qed.

Lemma selector_top_n_by_highest_witness :
  Py.int 4300 "1" = Some 1%Z /\ (0 < 1)%Z
  /\ top_by States.region
            (highest States.region (col daily_cases_col) falling_rising)
            falling_rising 1
            (States.get_state_list 4300 (States.Opts (Some "c") false "1")
               falling_rising daily_cases_col).
Proof.
  split; [reflexivity|]. split; [reflexivity|].
  exact (proj1 (selector_top_n_by_highest 4300 "1" 1 eq_refl eq_refl)
               (Some "c") false falling_rising daily_cases_col).
Defined.

End TopFacts.

(** ** The order of the sorted table *)

Module OrderFacts.

Import Pd Common More.
Local Open Scope string_scope.

Lemma ascii_compare_refl (a : ascii) : Ascii.compare a a = Eq.
Proof. apply N.compare_refl. Qed.

Lemma ascii_compare_lt_trans (a b c : ascii) :
  Ascii.compare a b = Lt -> Ascii.compare b c = Lt -> Ascii.compare a c = Lt.
Proof.
  unfold Ascii.compare. rewrite !N.compare_lt_iff. apply N.lt_trans.
Qed.

Lemma compare_refl (s : string) : String.compare s s = Eq.
Proof.
  induction s as [|c s IH]; simpl; [reflexivity|].
  now rewrite ascii_compare_refl.
Qed.

Lemma compare_lt_trans (a b c : string) :
  String.compare a b = Lt -> String.compare b c = Lt ->
  String.compare a c = Lt.
Proof.
  revert b c. induction a as [|x a IH]; intros [|y b] [|z c]; simpl;
    try congruence.
  destruct (Ascii.compare x y) eqn:Hxy; try discriminate.
  - apply Ascii.compare_eq_iff in Hxy. subst y.
    destruct (Ascii.compare x z); try congruence. apply IH.
  - intros _. destruct (Ascii.compare y z) eqn:Hyz; try discriminate.
    + apply Ascii.compare_eq_iff in Hyz. subst z. now rewrite Hxy.
    + intros _. now rewrite (ascii_compare_lt_trans x y z).
Qed.

Lemma compare_gt_lt (a b : string) :
  String.compare a b = Gt -> String.compare b a = Lt.
Proof.
  intros H. rewrite String.compare_antisym, H. reflexivity.
Qed.

Lemma compare_eq (a b : string) : String.compare a b = Eq <-> a = b.
Proof.
  split; [apply String.compare_eq_iff | intros ->; apply compare_refl].
Qed.

Lemma by_State_Date_total (x y : States.obs) :
  States.by_State_Date x y = false -> States.by_State_Date y x = true.
Proof.
  unfold States.by_State_Date.
  destruct (String.compare (States.state x) (States.state y)) eqn:H;
    try discriminate.
  - apply compare_eq in H. rewrite H, compare_refl. lia.
  - apply compare_gt_lt in H. now rewrite H.
Qed.

Lemma by_State_Date_trans (x y z : States.obs) :
  States.by_State_Date x y = true -> States.by_State_Date y z = true ->
  States.by_State_Date x z = true.
Proof.
  unfold States.by_State_Date.
  destruct (String.compare (States.state x) (States.state y)) eqn:Hxy;
    try discriminate;
    destruct (String.compare (States.state y) (States.state z)) eqn:Hyz;
    try discriminate.
  - apply compare_eq in Hxy, Hyz. rewrite Hxy, Hyz, compare_refl. lia.
  - apply compare_eq in Hxy. rewrite Hxy, Hyz. reflexivity.
  - apply compare_eq in Hyz. rewrite <- Hyz, Hxy. reflexivity.
  - now rewrite (compare_lt_trans _ _ _ Hxy Hyz).
Qed.

Lemma by_state_county_Date_total (x y : Counties.obs) :
  Counties.by_state_county_Date x y = false ->
  Counties.by_state_county_Date y x = true.
Proof.
  unfold Counties.by_state_county_Date.
  destruct (String.compare (Counties.state x) (Counties.state y)) eqn:H;
    try discriminate.
  - apply compare_eq in H. rewrite H, compare_refl.
    destruct (String.compare (Counties.county x) (Counties.county y))
      eqn:H'; try discriminate.
    + apply compare_eq in H'. rewrite H', compare_refl. lia.
    + apply compare_gt_lt in H'. now rewrite H'.
  - apply compare_gt_lt in H. now rewrite H.
Qed.

Lemma by_state_county_Date_trans (x y z : Counties.obs) :
  Counties.by_state_county_Date x y = true ->
  Counties.by_state_county_Date y z = true ->
  Counties.by_state_county_Date x z = true.
Proof.
  unfold Counties.by_state_county_Date.
  destruct (String.compare (Counties.state x) (Counties.state y)) eqn:Hxy;
    try discriminate;
    destruct (String.compare (Counties.state y) (Counties.state z)) eqn:Hyz;
    try discriminate.
  - apply compare_eq in Hxy, Hyz. rewrite Hxy, Hyz, compare_refl.
    destruct (String.compare (Counties.county x) (Counties.county y))
      eqn:Hxy'; try discriminate;
      destruct (String.compare (Counties.county y) (Counties.county z))
        eqn:Hyz'; try discriminate.
    + apply compare_eq in Hxy', Hyz'. rewrite Hxy', Hyz', compare_refl. lia.
    + apply compare_eq in Hxy'. rewrite Hxy', Hyz'. reflexivity.
    + apply compare_eq in Hyz'. rewrite <- Hyz', Hxy'. reflexivity.
    + now rewrite (compare_lt_trans _ _ _ Hxy' Hyz').
  - apply compare_eq in Hxy. rewrite Hxy, Hyz. reflexivity.
  - apply compare_eq in Hyz. rewrite <- Hyz, Hxy. reflexivity.
  - now rewrite (compare_lt_trans _ _ _ Hxy Hyz).
Qed.

End OrderFacts.

(** ** More on the Deriver *)

Module DeriveMore.

Import Pd Common Props More Examples.
Local Open Scope string_scope.

Section Combine.

Context {A B C : Type}.

Lemma combine3_fst (l : list A) (a : list B) (b : list C) :
  List.length a = List.length l -> List.length b = List.length l ->
  map fst (combine l (combine a b)) = l.
Proof.
  revert a b. induction l as [|x l IH]; intros [|y a] [|z b]; simpl;
    try discriminate; try reflexivity.
  intros Ha Hb. f_equal. apply IH; congruence.
Qed.

Lemma combine3_snd (l : list A) (a : list B) (b : list C) :
  List.length a = List.length l -> List.length b = List.length l ->
  map snd (combine l (combine a b)) = combine a b.
Proof.
  revert a b. induction l as [|x l IH]; intros [|y a] [|z b]; simpl;
    try discriminate; try reflexivity.
  intros Ha Hb. f_equal. apply IH; congruence.
Qed.

Lemma combine_fst (a : list B) (b : list C) :
  List.length a = List.length b -> map fst (combine a b) = a.
Proof.
  revert b. induction a as [|y a IH]; intros [|z b]; simpl;
    try discriminate; try reflexivity.
  intros H. f_equal. apply IH. congruence.
Qed.

Lemma combine_snd (a : list B) (b : list C) :
  List.length a = List.length b -> map snd (combine a b) = b.
Proof.
  revert b. induction a as [|y a IH]; intros [|z b]; simpl;
    try discriminate; try reflexivity.
  intros H. f_equal. apply IH. congruence.
Qed.

End Combine.

Lemma daily_len (l : list Z) : List.length (daily_of l) = List.length l.
Proof.
  unfold daily_of, fillna_int. rewrite length_map.
  destruct l as [|x l]; [reflexivity|]. simpl. f_equal.
  revert x. induction l as [|y l IH]; intros x; simpl; [reflexivity|].
  now rewrite IH.
Qed.

(** *** The table of daily differences, column by column *)

Lemma states_derive_observed (df : list States.obs) :
  map state_observed (States.derive df)
  = stable_sort States.by_State_Date df.
Proof.
  unfold States.derive. rewrite map_map.
  set (s := stable_sort States.by_State_Date df).
  set (dc := daily_of (map States.cases s)).
  set (dd := daily_of (map States.deaths s)).
  transitivity (map fst (combine s (combine dc dd))).
  - apply map_ext. intros [[d st f c de] [x y]]. reflexivity.
  - apply combine3_fst; unfold dc, dd; now rewrite daily_len, length_map.
Qed.


Lemma counties_derive_observed (df : list Counties.obs) :
  map county_observed (Counties.derive df)
  = map county_filled (stable_sort Counties.by_state_county_Date df).
Proof.
  unfold Counties.derive. rewrite map_map.
  set (s := stable_sort Counties.by_state_county_Date df).
  set (dc := daily_of (map Counties.cases s)).
  set (dd := daily_of (map Counties.deaths s)).
  transitivity (map county_filled (map fst (combine s (combine dc dd)))).
  - rewrite map_map. apply map_ext. intros [o [x y]]. reflexivity.
  - f_equal.
    apply combine3_fst; unfold dc, dd; now rewrite daily_len, length_map.
Qed.


Lemma derive_keeps_observations_helper :
  (forall df, Permutation (map state_observed (States.derive df)) df)
  /\ (forall df, Permutation (map county_observed (Counties.derive df))
                             (map county_filled df)).
Proof.
  split; intros df.
  - rewrite states_derive_observed. apply SortFacts.stable_sort_perm.
  - rewrite counties_derive_observed.
    apply Permutation_map, SortFacts.stable_sort_perm.
Qed.

(** X1.  The Deriver keeps every observation: the rows of the table of
    daily differences are the observations of the file, each once, with
    their date, region, numeric code (0 where the file has none) and
    cumulative counts unchanged. *)
Theorem derive_keeps_observations :
  (forall df, Permutation (map state_observed (States.derive df)) df)
  /\ (forall df, Permutation (map county_observed (Counties.derive df))
                             (map county_filled df)).
Proof.
  split; intros df.
  - rewrite states_derive_observed. apply SortFacts.stable_sort_perm.
  - rewrite counties_derive_observed.
    apply Permutation_map, SortFacts.stable_sort_perm.
Qed.

Lemma states_derive_sorted (df : list States.obs) :
  StronglySorted (holds States.by_State_Date)
                 (map state_observed (States.derive df)).
Proof.
  rewrite states_derive_observed.
  apply SortFacts.stable_sort_strongly.
  - apply OrderFacts.by_State_Date_total.
  - apply OrderFacts.by_State_Date_trans.
Qed.

Lemma counties_derive_sorted (df : list Counties.obs) :
  StronglySorted (holds Counties.by_state_county_Date)
                 (map county_observed (Counties.derive df)).
Proof.
  rewrite counties_derive_observed.
  apply (SortFacts.strongly_map (holds Counties.by_state_county_Date)).
  - intros x y _ _ H. exact H.
  - apply SortFacts.stable_sort_strongly.
    + apply OrderFacts.by_state_county_Date_total.
    + apply OrderFacts.by_state_county_Date_trans.
Qed.

(** X2.  The table of daily differences is sorted: by state and then date
    for the states, by state, county and then date for the counties. *)
Theorem derive_is_sorted :
  (forall df,
      StronglySorted (holds States.by_State_Date)
                     (map state_observed (States.derive df)))
  /\ (forall df,
         StronglySorted (holds Counties.by_state_county_Date)
                        (map county_observed (Counties.derive df))).
Proof.
  split; intros df.
  - apply states_derive_sorted.
  - apply counties_derive_sorted.
Qed.

(** *** Sums of daily differences *)









Lemma smooth_nth (l : list Z) (i : nat) :
  (i < List.length l)%nat ->
  nth i (smooth_col l) NaN
  = if (i <? 6)%nat then NaN
    else Fin (inject_Z (sum (firstn 7 (skipn (i - 6) l))) / 7).
Proof.
  intros Hi. unfold smooth_col, divide, rolling_sum.
  apply nth_error_nth.
  rewrite !nth_error_map, nth_error_seq.
  destruct (Nat.ltb_spec i (List.length l)) as [_|]; [|lia].
  simpl.
  change (S i <? 7)%nat with (i <? 6)%nat.
  destruct (i <? 6)%nat; reflexivity.
Qed.


(** *** The smoothed table, column by column *)

Lemma smooth_len (l : list Z) : List.length (smooth_col l) = List.length l.
Proof.
  unfold smooth_col, divide, rolling_sum.
  now rewrite !length_map, length_seq.
Qed.

Lemma states_derive_length (df : list States.obs) :
  List.length (States.derive df) = List.length df.
Proof.
  rewrite <- (length_map state_observed), states_derive_observed.
  apply Permutation_length, SortFacts.stable_sort_perm.
Qed.

Lemma counties_derive_length (df : list Counties.obs) :
  List.length (Counties.derive df) = List.length df.
Proof.
  rewrite <- (length_map county_observed), counties_derive_observed.
  rewrite length_map.
  apply Permutation_length, SortFacts.stable_sort_perm.
Qed.

Lemma states_smooth_fst (d : list States.drow) :
  map (fun r => (ids r, total_cases (vals r), total_deaths (vals r)))
      (States.smooth d)
  = map (fun r => (States.d_ids r, of_int (States.d_total_cases r),
                   of_int (States.d_total_deaths r))) d.
Proof.
  unfold States.smooth. rewrite map_map.
  set (sc := smooth_col (map States.d_daily_cases d)).
  set (sd := smooth_col (map States.d_daily_deaths d)).
  transitivity
    (map (fun r => (States.d_ids r, of_int (States.d_total_cases r),
                    of_int (States.d_total_deaths r)))
         (map fst (combine d (combine sc sd)))).
  - rewrite map_map. apply map_ext. intros [r [x y]]. reflexivity.
  - f_equal.
    apply combine3_fst; unfold sc, sd; now rewrite smooth_len, length_map.
Qed.

Lemma states_smooth_snd (d : list States.drow) :
  map (fun r => (daily_cases (vals r), daily_deaths (vals r)))
      (States.smooth d)
  = combine (smooth_col (map States.d_daily_cases d))
            (smooth_col (map States.d_daily_deaths d)).
Proof.
  unfold States.smooth. rewrite map_map.
  set (sc := smooth_col (map States.d_daily_cases d)).
  set (sd := smooth_col (map States.d_daily_deaths d)).
  transitivity (map snd (combine d (combine sc sd))).
  - apply map_ext. intros [r [x y]]. reflexivity.
  - apply combine3_snd; unfold sc, sd; now rewrite smooth_len, length_map.
Qed.

Lemma counties_smooth_fst (d : list Counties.drow) :
  map (fun r => (ids r, total_cases (vals r), total_deaths (vals r)))
      (Counties.smooth d)
  = map (fun r => (Counties.d_ids r, of_int (Counties.d_total_cases r),
                   of_int (Counties.d_total_deaths r))) d.
Proof.
  unfold Counties.smooth. rewrite map_map.
  set (sc := smooth_col (map Counties.d_daily_cases d)).
  set (sd := smooth_col (map Counties.d_daily_deaths d)).
  transitivity
    (map (fun r => (Counties.d_ids r, of_int (Counties.d_total_cases r),
                    of_int (Counties.d_total_deaths r)))
         (map fst (combine d (combine sc sd)))).
  - rewrite map_map. apply map_ext. intros [r [x y]]. reflexivity.
  - f_equal.
    apply combine3_fst; unfold sc, sd; now rewrite smooth_len, length_map.
Qed.

Lemma counties_smooth_snd (d : list Counties.drow) :
  map (fun r => (daily_cases (vals r), daily_deaths (vals r)))
      (Counties.smooth d)
  = combine (smooth_col (map Counties.d_daily_cases d))
            (smooth_col (map Counties.d_daily_deaths d)).
Proof.
  unfold Counties.smooth. rewrite map_map.
  set (sc := smooth_col (map Counties.d_daily_cases d)).
  set (sd := smooth_col (map Counties.d_daily_deaths d)).
  transitivity (map snd (combine d (combine sc sd))).
  - apply map_ext. intros [r [x y]]. reflexivity.
  - apply combine3_snd; unfold sc, sd; now rewrite smooth_len, length_map.
Qed.

Lemma smoothed_columns {R : Type} (l : list R) (f g : R -> fval)
  (a b : list fval) :
  map (fun r => (f r, g r)) l = combine a b ->
  List.length a = List.length b ->
  map f l = a /\ map g l = b.
Proof.
  intros H Hlen. split.
  - rewrite <- (combine_fst a b Hlen), <- H, map_map. reflexivity.
  - rewrite <- (combine_snd a b Hlen), <- H, map_map. reflexivity.
Qed.

Lemma states_smooth_daily (d : list States.drow) :
  map (fun r => daily_cases (vals r)) (States.smooth d)
  = smooth_col (map States.d_daily_cases d)
  /\ map (fun r => daily_deaths (vals r)) (States.smooth d)
     = smooth_col (map States.d_daily_deaths d).
Proof.
  apply smoothed_columns; [apply states_smooth_snd|].
  now rewrite !smooth_len, !length_map.
Qed.

Lemma counties_smooth_daily (d : list Counties.drow) :
  map (fun r => daily_cases (vals r)) (Counties.smooth d)
  = smooth_col (map Counties.d_daily_cases d)
  /\ map (fun r => daily_deaths (vals r)) (Counties.smooth d)
     = smooth_col (map Counties.d_daily_deaths d).
Proof.
  apply smoothed_columns; [apply counties_smooth_snd|].
  now rewrite !smooth_len, !length_map.
Qed.



End DeriveMore.

(** ** More on the rows that reach the Presenter *)

Module FilterMore.

Import Pd Common Props More Examples.
Local Open Scope string_scope.

(** Two daily columns of the same table are smoothed alike: both values of
    a row are missing, or both are finite. *)
Lemma smooth_pair (a b : list Z) (x y : fval) :
  List.length a = List.length b ->
  In (x, y) (combine (smooth_col a) (smooth_col b)) ->
  (x = NaN /\ y = NaN) \/ (finite x /\ finite y).
Proof.
  intros Hlen Hin.
  apply (In_nth _ _ (NaN, NaN)) in Hin. destruct Hin as (i & Hi & Hnth).
  rewrite length_combine, !DeriveMore.smooth_len in Hi.
  rewrite combine_nth in Hnth
    by (now rewrite !DeriveMore.smooth_len).
  rewrite !DeriveMore.smooth_nth in Hnth by lia.
  injection Hnth as <- <-.
  destruct (i <? 6)%nat; [left; now split | right].
  split; eexists; reflexivity.
Qed.

Lemma smooth_short (a : list Z) (x : fval) :
  (List.length a < 7)%nat -> In x (smooth_col a) -> x = NaN.
Proof.
  intros Hlen Hin.
  apply (In_nth _ _ NaN) in Hin. destruct Hin as (i & Hi & <-).
  rewrite DeriveMore.smooth_len in Hi.
  rewrite DeriveMore.smooth_nth by lia.
  destruct (Nat.ltb_spec i 6); [reflexivity | lia].
Qed.

Lemma states_smooth_shape (d : list States.drow) (r : row States.id_cols) :
  In r (States.smooth d) -> smooth_shape (vals r).
Proof.
  intros Hr. split.
  - apply (in_map (fun r => (ids r, total_cases (vals r),
                             total_deaths (vals r)))) in Hr.
    rewrite DeriveMore.states_smooth_fst in Hr.
    apply in_map_iff in Hr. destruct Hr as (x & Hx & _).
    injection Hx as _ <- <-. eexists; eexists; split; reflexivity.
  - apply (in_map (fun r => (daily_cases (vals r), daily_deaths (vals r))))
      in Hr.
    rewrite DeriveMore.states_smooth_snd in Hr.
    apply smooth_pair in Hr; [assumption | now rewrite !length_map].
Qed.

Lemma counties_smooth_shape (d : list Counties.drow)
  (r : row Counties.id_cols) :
  In r (Counties.smooth d) -> smooth_shape (vals r).
Proof.
  intros Hr. split.
  - apply (in_map (fun r => (ids r, total_cases (vals r),
                             total_deaths (vals r)))) in Hr.
    rewrite DeriveMore.counties_smooth_fst in Hr.
    apply in_map_iff in Hr. destruct Hr as (x & Hx & _).
    injection Hx as _ <- <-. eexists; eexists; split; reflexivity.
  - apply (in_map (fun r => (daily_cases (vals r), daily_deaths (vals r))))
      in Hr.
    rewrite DeriveMore.counties_smooth_snd in Hr.
    apply smooth_pair in Hr; [assumption | now rewrite !length_map].
Qed.

Lemma merge_fst_In {R K : Type} (eqb : K -> K -> bool) (key : R -> K)
  (left : list R) (right : list (K * Z)) (m : R * Z) :
  In m (merge eqb key left right) -> In (fst m) left.
Proof.
  unfold merge. rewrite in_flat_map. intros (r & Hr & Hm).
  apply in_map_iff in Hm. destruct Hm as (p & <- & _). exact Hr.
Qed.

Lemma noise_filter_sub {I : Type} (norm : bool) (df : list (mrow I))
  (m : mrow I) :
  In m (noise_filter norm df) ->
  In m df /\ isna (col daily_cases_col m) = false.
Proof.
  unfold noise_filter. destruct norm; rewrite filter_In; intros [Hin Hge];
    (split; [assumption|]); destruct (col daily_cases_col m);
    simpl in *; congruence.
Qed.

(** X5.  Without [--norm], all four metrics of every row given to the
    Presenter are finite numbers: the totals are the integer counts, and
    the smoothed daily deaths are defined wherever the smoothed daily cases
    are.  So the formats of the printed numbers and the conversion [int(...)]
    of the chart labels are never applied to NaN or to an infinity. *)
Theorem presented_metrics_are_finite :
  (forall lim m s df csv,
      Forall (fun x => forall c, finite (col c x))
             (snd (States.test lim (States.Opts m false s) df csv)))
  /\ (forall lim a m s df csv,
         Forall (fun x => forall c, finite (col c x))
                (snd (Counties.test lim (Counties.Opts a m false s) df csv))).
Proof.
  assert (Hshape : forall v c, smooth_shape v ->
                               isna (daily_cases v) = false ->
                               finite (get_col c v)).
  { intros v c [(tc & td & Htc & Htd) Hd] Hna.
    destruct Hd as [[Hc _]|[Hc Hdd]].
    - rewrite Hc in Hna. discriminate.
    - destruct c; simpl; [rewrite Htc | rewrite Htd | |];
        try assumption; eexists; reflexivity. }
  split; intros; apply Forall_forall; intros x Hx;
    unfold States.test, Counties.test in Hx; cbn [snd] in Hx;
    apply noise_filter_sub in Hx; destruct Hx as [Hin Hna];
    unfold States.joined, Counties.joined in Hin; simpl in Hin;
    apply merge_fst_In in Hin; intros c; apply Hshape; try assumption.
  - eapply states_smooth_shape, Hin.
  - apply filter_In in Hin. destruct Hin as [Hin _].
    eapply counties_smooth_shape, Hin.
Qed.

Lemma nil_of_no_member {A : Type} (l : list A) :
  (forall x, ~ In x l) -> l = [].
Proof.
  destruct l as [|x l]; [reflexivity|].
  intros H. exfalso. apply (H x). now left.
Qed.

Lemma states_short_empty (lim : nat) (o : States.opts)
  (df : list States.obs) (csv : list States.census) :
  (List.length df < 7)%nat -> snd (States.test lim o df csv) = [].
Proof.
  intros Hlen. apply nil_of_no_member. intros x Hx.
  unfold States.test in Hx. cbn [snd] in Hx.
  apply noise_filter_sub in Hx. destruct Hx as [Hin Hna].
  unfold States.joined in Hin.
  destruct (FilterFacts.joined_origin _ _ _ _ _ _ Hin Hna)
    as (r & Hr & _ & Hd).
  apply (in_map (fun r => daily_cases (vals r))) in Hr.
  destruct (DeriveMore.states_smooth_daily (States.derive df)) as [E _].
  rewrite E in Hr. apply smooth_short in Hr.
  - rewrite Hr in Hd. discriminate.
  - now rewrite length_map, DeriveMore.states_derive_length.
Qed.

Lemma counties_short_empty (lim : nat) (o : Counties.opts)
  (df : list Counties.obs) (csv : list Counties.census) :
  (List.length df < 7)%nat -> snd (Counties.test lim o df csv) = [].
Proof.
  intros Hlen. apply nil_of_no_member. intros x Hx.
  unfold Counties.test in Hx. cbn [snd] in Hx.
  apply noise_filter_sub in Hx. destruct Hx as [Hin Hna].
  unfold Counties.joined in Hin.
  destruct (FilterFacts.joined_origin _ _ _ _ _ _ Hin Hna)
    as (r & Hr & _ & Hd).
  apply filter_In in Hr. destruct Hr as [Hr _].
  apply (in_map (fun r => daily_cases (vals r))) in Hr.
  destruct (DeriveMore.counties_smooth_daily (Counties.derive df))
    as [E _].
  rewrite E in Hr. apply smooth_short in Hr.
  - rewrite Hr in Hd. discriminate.
  - now rewrite length_map, DeriveMore.counties_derive_length.
Qed.

(** X6.  A file of fewer than seven observations gives the Presenter an
    empty table, whatever the options and the population table: no row has
    a full window, so no row has smoothed daily cases. *)
Theorem short_table_presents_nothing :
  (forall lim o df csv,
      (List.length df < 7)%nat -> snd (States.test lim o df csv) = [])
  /\ (forall lim o df csv,
         (List.length df < 7)%nat -> snd (Counties.test lim o df csv) = []).
Proof.
  split; intros lim o df csv Hlen.
  - now apply states_short_empty.
  - now apply counties_short_empty.
Qed.

Lemma short_table_presents_nothing_witness :
  (List.length a_b_states < 7)%nat
  /\ snd (States.test 4300 (States.Opts None false "2")
            a_b_states a_b_state_pops) = [].
Proof.
  assert (H : (List.length a_b_states < 7)%nat) by (simpl; lia).
  split; [exact H|].
  exact (proj1 short_table_presents_nothing 4300%nat
               (States.Opts None false "2") a_b_states a_b_state_pops H).
Defined.

End FilterMore.

(** ** More on the Population Joiner *)

Module JoinMore.

Import Pd Common Props More Examples.
Local Open Scope string_scope.

Section UniqueKeys.

Context {R K : Type}.
Variable eqb : K -> K -> bool.
Hypothesis eqb_eq : forall a b, eqb a b = true <-> a = b.
Variable key : R -> K.

(** With distinct keys at most one row of the population table matches. *)
Lemma matches_of_unique (right : list (K * Z)) (k : K) :
  NoDup (map fst right) ->
  List.length (filter (fun p => eqb k (fst p)) right)
  = if has_population eqb right k then 1%nat else 0%nat.
Proof.
  unfold has_population.
  induction right as [|[k' v] right IH]; simpl; intros Hnd; [reflexivity|].
  inversion Hnd as [|? ? Hk Hnd']; subst.
  destruct (eqb k k') eqn:E; simpl.
  - apply eqb_eq in E. subst k'.
    rewrite IH by assumption.
    destruct (existsb (fun p => eqb k (fst p)) right) eqn:Ex;
      [|reflexivity].
    exfalso. apply Hk. apply existsb_exists in Ex.
    destruct Ex as (p & Hp & Hpk). apply eqb_eq in Hpk. subst k.
    now apply in_map.
  - now apply IH.
Qed.

Lemma merge_unique (left : list R) (right : list (K * Z)) :
  NoDup (map fst right) ->
  map fst (merge eqb key left right)
  = filter (fun r => has_population eqb right (key r)) left.
Proof.
  intros Hnd. unfold merge.
  induction left as [|r left IH]; simpl; [reflexivity|].
  rewrite map_app, IH, map_map. simpl.
  pose proof (matches_of_unique right (key r) Hnd) as Hlen.
  destruct (has_population eqb right (key r)).
  - destruct (filter (fun p => eqb (key r) (fst p)) right) as [|p [|q l]];
      simpl in Hlen; try discriminate. reflexivity.
  - destruct (filter (fun p => eqb (key r) (fst p)) right);
      simpl in Hlen; try discriminate. reflexivity.
Qed.

End UniqueKeys.

Lemma normalize_ids {I : Type} (df : list (mrow I)) :
  map (fun m => ids (fst m)) (normalize df)
  = map (fun m => ids (fst m)) df.
Proof.
  rewrite JoinFacts.normalize_percent, map_map. reflexivity.
Qed.

(** X7.  When no two rows of the population table have the same key, the
    merged table has the rows of the smoothed table whose region has a
    population, each once and in their order: the join drops rows and
    never repeats one. *)
Theorem join_with_unique_keys :
  (forall o df csv,
      NoDup (map States.c_state csv) ->
      map (fun m => ids (fst m)) (States.joined o df csv)
      = map ids
            (filter (fun r => has_population String.eqb
                                (States.get_populations csv)
                                (States.State (ids r)))
                    (States.smooth (States.derive df))))
  /\ (forall o df csv,
         NoDup (map fst (Counties.get_populations csv)) ->
         map (fun m => ids (fst m)) (Counties.joined o df csv)
         = map ids
               (filter (fun r => has_population Z.eqb
                                   (Counties.get_populations csv)
                                   (Counties.Fips (ids r)))
                       (filter (fun r => String.eqb (Counties.parent (ids r))
                                                    (Counties.opt_state o))
                               (Counties.smooth (Counties.derive df))))).
Proof.
  split; intros o df csv Hnd.
  - assert (Hk : NoDup (map fst (States.get_populations csv))).
    { unfold States.get_populations. rewrite map_map. exact Hnd. }
    unfold States.joined.
    destruct (States.norm o); [rewrite normalize_ids|];
      rewrite <- (map_map fst ids);
      now rewrite (merge_unique String.eqb String.eqb_eq).
  - unfold Counties.joined.
    destruct (Counties.norm o); [rewrite normalize_ids|];
      rewrite <- (map_map fst ids);
      now rewrite (merge_unique Z.eqb Z.eqb_eq).
Qed.

Lemma join_with_unique_keys_witness :
  NoDup (map States.c_state two_weeks_pops)
  /\ map (fun m => ids (fst m))
         (States.joined (States.Opts None false "2") two_weeks two_weeks_pops)
     = map ids
           (filter (fun r => has_population String.eqb
                               (States.get_populations two_weeks_pops)
                               (States.State (ids r)))
                   (States.smooth (States.derive two_weeks))).
Proof.
  assert (H : NoDup (map States.c_state two_weeks_pops)).
  { simpl. repeat constructor; simpl; intuition discriminate. }
  split; [exact H|].
  exact (proj1 join_with_unique_keys (States.Opts None false "2")
               two_weeks two_weeks_pops H).
Defined.



End JoinMore.

(** ** More on the Normalizer *)

Module NormMore.

Import Pd Common Props More Examples.
Local Open Scope string_scope.

Lemma Qle_bool_eq (a b c d : Q) :
  (a <= b <-> c <= d)%Q -> Qle_bool a b = Qle_bool c d.
Proof.
  intros H. apply eq_true_iff_eq. rewrite !Qle_bool_iff. exact H.
Qed.

Lemma scale_pos (p : Z) : (0 < p)%Z -> (0 < / inject_Z p * 100)%Q.
Proof.
  intros Hp. apply Qmult_lt_0_compat; [|reflexivity].
  apply Qinv_lt_0_compat. unfold Qlt. simpl. lia.
Qed.

Lemma percent_fin (q : Q) (p : Z) :
  (0 < p)%Z -> percent_of (Fin q) p = Fin (q / inject_Z p * 100).
Proof.
  intros Hp. unfold percent_of, div_int.
  destruct (Z.eqb_spec p 0); [lia | reflexivity].
Qed.

Lemma percent_inf (p : Z) :
  (0 < p)%Z -> percent_of PInf p = PInf /\ percent_of NInf p = NInf.
Proof.
  intros Hp. unfold percent_of, div_int.
  destruct (Z.leb_spec 0 p); [now split | lia].
Qed.

Lemma scaled_le (a b : Q) (p : Z) :
  (0 < p)%Z ->
  (a / inject_Z p * 100 <= b / inject_Z p * 100 <-> a <= b)%Q.
Proof.
  intros Hp. unfold Qdiv. rewrite <- !Qmult_assoc.
  apply Qmult_le_r. now apply scale_pos.
Qed.

(** For a positive population the percentage of a value has the sign and
    the rank of the value, and is missing exactly when the value is. *)
Lemma percent_sign (v : fval) (p : Z) :
  (0 < p)%Z -> ge (percent_of v p) 0 = ge v 0.
Proof.
  intros Hp. destruct v as [| | |q].
  - reflexivity.
  - now rewrite (proj1 (percent_inf p Hp)).
  - now rewrite (proj2 (percent_inf p Hp)).
  - rewrite percent_fin by assumption. simpl. apply Qle_bool_eq.
    rewrite <- (scaled_le 0 q p Hp).
    assert (E : (0 / inject_Z p * 100 == 0)%Q) by (unfold Qdiv; ring).
    now rewrite E.
Qed.



Lemma col_percent_row {I : Type} (c : column) (m : mrow I) :
  col c (percent_row m) = percent_of (col c m) (population m).
Proof. destruct c; reflexivity. Qed.

Lemma merge_snd_In {R K : Type} (eqb : K -> K -> bool) (key : R -> K)
  (left : list R) (right : list (K * Z)) (m : R * Z) :
  In m (merge eqb key left right) -> In (snd m) (map snd right).
Proof.
  unfold merge. rewrite in_flat_map. intros (r & _ & Hm).
  apply in_map_iff in Hm. destruct Hm as (q & <- & Hq).
  apply filter_In in Hq. simpl. apply in_map. tauto.
Qed.

Lemma filter_map_in {A B : Type} (f : A -> B) (g : A -> bool)
  (g' : B -> bool) (l : list A) :
  (forall x, In x l -> g' (f x) = g x) ->
  filter g' (map f l) = map f (filter g l).
Proof.
  intros H. induction l as [|x l IH]; simpl; [reflexivity|].
  rewrite H by now left.
  rewrite IH by (intros y Hy; apply H; now right).
  now destruct (g x).
Qed.

(** X9.  With [--norm] and a population table of positive populations, the
    noise filter keeps exactly the rows whose smoothed daily cases are not
    negative (and not missing): the table given to the Presenter is the
    rescaling of those rows of the unnormalised table. *)
Theorem norm_filter_is_sign_filter :
  (forall lim m s df csv,
      Forall (fun c => (0 < States.Estimated_pop_2019 c)%Z) csv ->
      snd (States.test lim (States.Opts m true s) df csv)
      = map percent_row
            (filter (fun x => ge (col daily_cases_col x) 0)
                    (States.joined (States.Opts m false s) df csv)))
  /\ (forall lim a m s df csv,
         Forall (fun c => (0 < Counties.POPESTIMATE2019 c)%Z) csv ->
         snd (Counties.test lim (Counties.Opts a m true s) df csv)
         = map percent_row
               (filter (fun x => ge (col daily_cases_col x) 0)
                       (Counties.joined (Counties.Opts a m false s) df csv))).
Proof.
  split; intros; unfold States.test, Counties.test; cbn [snd];
    unfold States.joined, Counties.joined; simpl;
    rewrite JoinFacts.normalize_percent;
    apply filter_map_in; intros x Hx;
    change (ge (col daily_cases_col (percent_row x)) 0
            = ge (col daily_cases_col x) 0);
    rewrite col_percent_row; apply percent_sign;
    apply merge_snd_In in Hx; apply in_map_iff in Hx;
    destruct Hx as (q & Hq & Hin);
    unfold States.get_populations, Counties.get_populations in Hin;
    apply in_map_iff in Hin; destruct Hin as (c & <- & Hc);
    rewrite Forall_forall in H; specialize (H c Hc);
    unfold population; rewrite <- Hq; exact H.
Qed.

Lemma norm_filter_is_sign_filter_witness :
  Forall (fun c => (0 < States.Estimated_pop_2019 c)%Z) two_weeks_pops
  /\ snd (States.test 4300 (States.Opts None true "2")
            two_weeks two_weeks_pops)
     = map percent_row
           (filter (fun x => ge (col daily_cases_col x) 0)
                   (States.joined (States.Opts None false "2")
                                  two_weeks two_weeks_pops)).
Proof.
  assert (H : Forall (fun c => (0 < States.Estimated_pop_2019 c)%Z)
                     two_weeks_pops)
    by (repeat constructor).
  split; [exact H|].
  exact (proj1 norm_filter_is_sign_filter 4300%nat None "2"
               two_weeks two_weeks_pops H).
Defined.

(** *** Sorting a rescaled table *)

Section SortMap.

Context {A B : Type}.
Variable f : A -> B.
Variable leb : A -> A -> bool.
Variable leb' : B -> B -> bool.



End SortMap.


Section SamePopulation.

Context {I : Type}.
Variable region : mrow I -> string.
Hypothesis region_ids : forall m, region (percent_row m) = region m.
Variable p : Z.
Hypothesis p_pos : (0 < p)%Z.
Variable df : list (mrow I).
Hypothesis same : forall m, In m df -> population m = p.




End SamePopulation.



End NormMore.

(** ** More on the Selector *)

Module SelectMore.

Import Pd Common Props More Examples.
Local Open Scope string_scope.

Section Prefix.

Context {R : Type}.
Variable region : R -> string.
Variable column : R -> fval.
Variable df : list R.

(** Any prefix of the ranking is a best choice of its length. *)
Lemma ranked_prefix_top_by (k : nat) :
  top_by region (highest region column df) df
         (Nat.min k (List.length (regions region df)))
         (firstn k (map region (ranked region column df))).
Proof.
  set (names := map region (ranked region column df)).
  pose proof (TopFacts.deduped_descending region column df) as Hdesc.
  pose proof (TopFacts.deduped_NoDup region column df) as Hnd.
  fold names in Hdesc, Hnd.
  unfold top_by. repeat split.
  - rewrite <- (firstn_skipn k names) in Hnd.
    now apply NoDup_app_remove_r in Hnd.
  - intros r Hr. apply TopFacts.In_firstn in Hr.
    now apply (TopFacts.deduped_regions region column df).
  - now apply SortFacts.strongly_firstn.
  - intros r r' Hr Hr' Hout.
    apply (TopFacts.deduped_regions region column df) in Hr'.
    fold names in Hr'.
    rewrite <- (firstn_skipn k names) in Hr', Hdesc.
    apply in_app_or in Hr'. destruct Hr' as [Hr'|Hr']; [contradiction|].
    apply SortFacts.strongly_app_inv in Hdesc. destruct Hdesc as [_ Hdesc].
    now apply Hdesc.
  - rewrite length_firstn. unfold names.
    now rewrite TopFacts.deduped_length.
Qed.

(** For a negative N the slice [[:N]] drops the last [-N] regions of the
    ranking. *)
Lemma top_regions_negative (n : Z) :
  (n < 0)%Z ->
  top_by region (highest region column df) df
         (List.length (regions region df) - Z.to_nat (- n))
         (top_regions region n df column).
Proof.
  intros Hn. unfold top_regions, Py.slice_to.
  destruct (Z.leb_spec 0 n) as [|_]; [lia|].
  fold (ranked region column df).
  rewrite (TopFacts.deduped_length region column df).
  pose proof (ranked_prefix_top_by
                (List.length (regions region df) - Z.to_nat (- n))) as H.
  rewrite Nat.min_l in H by lia. exact H.
Qed.

(** For an N that is at least the number of regions the list has every
    region of the table, once. *)
Lemma top_regions_all (n : Z) :
  (Z.of_nat (List.length (regions region df)) <= n)%Z ->
  Permutation (top_regions region n df column) (regions region df).
Proof.
  intros Hn. unfold top_regions, Py.slice_to.
  destruct (Z.leb_spec 0 n) as [_|]; [|lia].
  fold (ranked region column df).
  rewrite firstn_all2
    by (rewrite (TopFacts.deduped_length region column df); lia).
  apply NoDup_Permutation.
  - apply TopFacts.deduped_NoDup.
  - apply NoDup_nodup.
  - intros r. unfold regions. rewrite nodup_In.
    apply TopFacts.deduped_regions.
Qed.

End Prefix.

(** X11.  For an argument that is the literal of a negative integer N, the
    Selector returns the ranking by highest value without its last -N
    regions: the number of regions minus -N of them (none if that is not
    positive), each once, in descending order, and no region left out beats
    one listed. *)
Theorem selector_negative_n :
  forall (lim : nat) (arg : string) (n : Z),
    Py.int lim arg = Some n -> (n < 0)%Z ->
    (forall m nrm df c,
        top_by States.region (highest States.region (col c) df) df
               (List.length (regions States.region df) - Z.to_nat (- n))
               (States.get_state_list lim (States.Opts m nrm arg) df c))
    /\ (forall m nrm s df c,
           top_by Counties.region (highest Counties.region (col c) df) df
                  (List.length (regions Counties.region df)
                   - Z.to_nat (- n))
                  (Counties.get_county_list lim
                     (Counties.Opts arg m nrm s) df c)).
Proof.
  intros lim arg n Hint Hn.
  assert (Hz : (n =? 0)%Z = false) by (apply Z.eqb_neq; lia).
  split; intros;
    unfold States.get_state_list, Counties.get_county_list, get_region_list;
    simpl; rewrite Hint, Hz; now apply top_regions_negative.
Qed.

Lemma selector_negative_n_witness :
  Py.int 4300 "-1" = Some (-1)%Z /\ (-1 < 0)%Z
  /\ top_by States.region
            (highest States.region (col daily_cases_col) falling_rising)
            falling_rising
            (List.length (regions States.region falling_rising)
             - Z.to_nat (- (-1)))
            (States.get_state_list 4300 (States.Opts (Some "c") false "-1")
               falling_rising daily_cases_col).
Proof.
  split; [reflexivity|]. split; [reflexivity|].
  exact (proj1 (selector_negative_n 4300 "-1" (-1) eq_refl eq_refl)
               (Some "c") false falling_rising daily_cases_col).
Defined.

(** X12.  For an argument that is the literal of an integer N that is at
    least the number of regions of the table, the Selector returns every
    region of the table, each once. *)
Theorem selector_n_covers_all :
  forall (lim : nat) (arg : string) (n : Z),
    Py.int lim arg = Some n -> (0 < n)%Z ->
    (forall m nrm df c,
        (Z.of_nat (List.length (regions States.region df)) <= n)%Z ->
        Permutation (States.get_state_list lim (States.Opts m nrm arg) df c)
                    (regions States.region df))
    /\ (forall m nrm s df c,
           (Z.of_nat (List.length (regions Counties.region df)) <= n)%Z ->
           Permutation (Counties.get_county_list lim
                          (Counties.Opts arg m nrm s) df c)
                       (regions Counties.region df)).
Proof.
  intros lim arg n Hint Hn.
  assert (Hz : (n =? 0)%Z = false) by (apply Z.eqb_neq; lia).
  split; intros;
    unfold States.get_state_list, Counties.get_county_list, get_region_list;
    simpl; rewrite Hint, Hz; now apply top_regions_all.
Qed.

Lemma selector_n_covers_all_witness :
  Py.int 4300 "3" = Some 3%Z /\ (0 < 3)%Z
  /\ (Z.of_nat (List.length (regions States.region falling_rising)) <= 3)%Z
  /\ Permutation
       (States.get_state_list 4300 (States.Opts (Some "c") false "3")
          falling_rising daily_cases_col)
       (regions States.region falling_rising).
Proof.
  assert (H : (Z.of_nat (List.length (regions States.region falling_rising))
               <= 3)%Z) by (vm_compute; discriminate).
  split; [reflexivity|]. split; [reflexivity|]. split; [exact H|].
  exact (proj1 (selector_n_covers_all 4300 "3" 3 eq_refl eq_refl)
               (Some "c") false falling_rising daily_cases_col H).
Defined.

Lemma split_comma_count (s : string) :
  List.length (Py.split_comma s) = S (commas s).
Proof.
  induction s as [|c s IH]; simpl; [reflexivity|].
  destruct (Ascii.eqb c ","); simpl; [now rewrite IH|].
  destruct (Py.split_comma s); simpl in *; [discriminate | exact IH].
Qed.

(** X13.  When the region argument is not an integer literal, the Selector
    returns one name for each comma-separated field of the argument: one
    more than the argument has commas, so at least one, also for fields
    that are empty. *)
Theorem explicit_list_has_a_name_per_field :
  forall (lim : nat) (arg : string),
    Py.int lim arg = None ->
    (forall m n df c,
        List.length (States.get_state_list lim (States.Opts m n arg) df c)
        = S (commas arg))
    /\ (forall m n s df c,
           List.length (Counties.get_county_list lim
                          (Counties.Opts arg m n s) df c)
           = S (commas arg)).
Proof.
  intros lim arg Hint. split; intros;
    unfold States.get_state_list, Counties.get_county_list, get_region_list;
    simpl; rewrite Hint; unfold explicit_regions;
    now rewrite length_map, split_comma_count.
Qed.

Lemma explicit_list_has_a_name_per_field_witness :
  Py.int 4300 "Texas,,California" = None
  /\ List.length (States.get_state_list 4300
                    (States.Opts None false "Texas,,California") [] 
                    total_cases_col)
     = S (commas "Texas,,California").
Proof.
  split; [reflexivity|].
  exact (proj1 (explicit_list_has_a_name_per_field 4300 "Texas,,California"
                  eq_refl)
               None false [] total_cases_col).
Defined.

End SelectMore.

(** ** The order of the table given to the Presenter *)

Module SortedMore.

Import Pd Common Props More Examples.
Local Open Scope string_scope.

Lemma state_ids_le_refl (a : States.id_cols) : state_ids_le a a = true.
Proof.
  unfold state_ids_le. rewrite OrderFacts.compare_refl. apply Z.leb_refl.
Qed.

Lemma county_ids_le_refl (a : Counties.id_cols) : county_ids_le a a = true.
Proof.
  unfold county_ids_le. rewrite !OrderFacts.compare_refl. apply Z.leb_refl.
Qed.

Section Preserve.

Context {A : Type}.
Variable rel : A -> A -> Prop.

Lemma strongly_filter (f : A -> bool) (l : list A) :
  StronglySorted rel l -> StronglySorted rel (filter f l).
Proof.
  induction 1 as [|x l Hs IH Hall]; simpl; [constructor|].
  destruct (f x); [|exact IH].
  constructor; [exact IH|].
  apply Forall_forall. intros y Hy. apply filter_In in Hy.
  rewrite Forall_forall in Hall. apply Hall. tauto.
Qed.

Lemma strongly_same (l : list A) :
  (forall x y, In x l -> In y l -> rel x y) -> StronglySorted rel l.
Proof.
  induction l as [|x l IH]; intros H; constructor.
  - apply IH. intros a b Ha Hb. apply H; now right.
  - apply Forall_forall. intros y Hy. apply H; [now left | now right].
Qed.

End Preserve.

(** The inner join keeps the order of the left table. *)
Lemma merge_sorted {R K : Type} (eqb : K -> K -> bool) (key : R -> K)
  (rel : R -> R -> Prop) (left : list R) (right : list (K * Z)) :
  (forall r, rel r r) ->
  StronglySorted rel left ->
  StronglySorted (fun a b => rel (fst a) (fst b))
                 (merge eqb key left right).
Proof.
  intros Hrefl H. unfold merge.
  induction H as [|r left Hs IH Hall]; simpl; [constructor|].
  apply SortFacts.strongly_app.
  - apply strongly_same. intros x y Hx Hy.
    apply in_map_iff in Hx, Hy.
    destruct Hx as (? & <- & _), Hy as (? & <- & _). apply Hrefl.
  - exact IH.
  - intros x y Hx Hy. apply in_map_iff in Hx. destruct Hx as (? & <- & _).
    apply (FilterMore.merge_fst_In eqb key left right) in Hy.
    rewrite Forall_forall in Hall. now apply Hall.
Qed.

Lemma states_smooth_sorted (df : list States.obs) :
  StronglySorted (fun a b => state_ids_le (ids a) (ids b) = true)
                 (States.smooth (States.derive df)).
Proof.
  pose proof (DeriveMore.states_derive_sorted df) as H.
  assert (E : map ids (States.smooth (States.derive df))
              = map States.d_ids (States.derive df)).
  { pose proof (DeriveMore.states_smooth_fst (States.derive df)) as F.
    apply (f_equal (map (fun t => fst (fst t)))) in F.
    now rewrite !map_map in F. }
  assert (S1 : StronglySorted (fun a b => state_ids_le a b = true)
                              (map States.d_ids (States.derive df))).
  { apply (SortFacts.strongly_map
             (fun a b => state_ids_le (States.d_ids a) (States.d_ids b)
                         = true)).
    - intros x y _ _ Hxy. exact Hxy.
    - clear E. induction (States.derive df) as [|x l IH]; [constructor|].
      simpl in H. inversion H as [|? ? Hs Hall]; subst.
      constructor; [now apply IH|].
      apply Forall_forall. intros y Hy.
      rewrite Forall_forall in Hall.
      apply (Hall (state_observed y)). now apply in_map. }
  rewrite <- E in S1. clear E H.
  induction (States.smooth (States.derive df)) as [|x l IH]; [constructor|].
  simpl in S1. inversion S1 as [|? ? Hs Hall]; subst.
  constructor; [now apply IH|].
  apply Forall_forall. intros y Hy. rewrite Forall_forall in Hall.
  apply Hall. now apply in_map.
Qed.

Lemma counties_smooth_sorted (df : list Counties.obs) :
  StronglySorted (fun a b => county_ids_le (ids a) (ids b) = true)
                 (Counties.smooth (Counties.derive df)).
Proof.
  pose proof (DeriveMore.counties_derive_sorted df) as H.
  assert (E : map ids (Counties.smooth (Counties.derive df))
              = map Counties.d_ids (Counties.derive df)).
  { pose proof (DeriveMore.counties_smooth_fst (Counties.derive df)) as F.
    apply (f_equal (map (fun t => fst (fst t)))) in F.
    now rewrite !map_map in F. }
  assert (S1 : StronglySorted (fun a b => county_ids_le a b = true)
                              (map Counties.d_ids (Counties.derive df))).
  { apply (SortFacts.strongly_map
             (fun a b => county_ids_le (Counties.d_ids a) (Counties.d_ids b)
                         = true)).
    - intros x y _ _ Hxy. exact Hxy.
    - clear E. induction (Counties.derive df) as [|x l IH]; [constructor|].
      simpl in H. inversion H as [|? ? Hs Hall]; subst.
      constructor; [now apply IH|].
      apply Forall_forall. intros y Hy.
      rewrite Forall_forall in Hall.
      apply (Hall (county_observed y)). now apply in_map. }
  rewrite <- E in S1. clear E H.
  induction (Counties.smooth (Counties.derive df)) as [|x l IH];
    [constructor|].
  simpl in S1. inversion S1 as [|? ? Hs Hall]; subst.
  constructor; [now apply IH|].
  apply Forall_forall. intros y Hy. rewrite Forall_forall in Hall.
  apply Hall. now apply in_map.
Qed.

Lemma normalize_sorted {I : Type} (rel : I -> I -> Prop)
  (df : list (mrow I)) :
  StronglySorted (fun a b => rel (ids (fst a)) (ids (fst b))) df ->
  StronglySorted (fun a b => rel (ids (fst a)) (ids (fst b)))
                 (normalize df).
Proof.
  intros H. rewrite JoinFacts.normalize_percent.
  apply (SortFacts.strongly_map
           (fun a b => rel (ids (fst a)) (ids (fst b)))); [|exact H].
  intros x y _ _ Hxy. exact Hxy.
Qed.

Lemma noise_filter_sorted {I : Type} (rel : mrow I -> mrow I -> Prop)
  (norm : bool) (df : list (mrow I)) :
  StronglySorted rel df -> StronglySorted rel (noise_filter norm df).
Proof.
  intros H. unfold noise_filter. destruct norm; now apply strongly_filter.
Qed.

Lemma state_row_le_refl (a : mrow States.id_cols) : state_row_le a a = true.
Proof. apply state_ids_le_refl. Qed.

Lemma county_row_le_refl (a : mrow Counties.id_cols) :
  county_row_le a a = true.
Proof. apply county_ids_le_refl. Qed.

Lemma states_joined_sorted (o : States.opts) (df : list States.obs)
  (csv : list States.census) :
  StronglySorted (holds state_row_le) (States.joined o df csv).
Proof.
  unfold States.joined.
  assert (M : StronglySorted (holds state_row_le)
                (merge String.eqb (fun r => States.State (ids r))
                       (States.smooth (States.derive df))
                       (States.get_populations csv))).
  { apply (merge_sorted String.eqb _
             (fun a b => state_ids_le (ids a) (ids b) = true)).
    - intros r. apply state_ids_le_refl.
    - apply states_smooth_sorted. }
  destruct (States.norm o); [|exact M].
  apply (normalize_sorted (fun a b => state_ids_le a b = true)). exact M.
Qed.

Lemma counties_joined_sorted (o : Counties.opts) (df : list Counties.obs)
  (csv : list Counties.census) :
  StronglySorted (holds county_row_le) (Counties.joined o df csv).
Proof.
  unfold Counties.joined.
  assert (M : StronglySorted (holds county_row_le)
                (merge Z.eqb (fun r => Counties.Fips (ids r))
                       (filter (fun r => String.eqb
                                           (Counties.parent (ids r))
                                           (Counties.opt_state o))
                               (Counties.smooth (Counties.derive df)))
                       (Counties.get_populations csv))).
  { apply (merge_sorted Z.eqb _
             (fun a b => county_ids_le (ids a) (ids b) = true)).
    - intros r. apply county_ids_le_refl.
    - apply strongly_filter, counties_smooth_sorted. }
  destruct (Counties.norm o); [|exact M].
  apply (normalize_sorted (fun a b => county_ids_le a b = true)). exact M.
Qed.

(** X14.  The table given to the Presenter is sorted like the table of the
    Deriver: by state and then date (by state, county and then date for
    the counties).  The merge, the normalisation and the noise filter keep
    the order of the rows. *)
Theorem presented_table_is_sorted :
  (forall lim o df csv,
      StronglySorted (holds state_row_le) (snd (States.test lim o df csv)))
  /\ (forall lim o df csv,
         StronglySorted (holds county_row_le)
                        (snd (Counties.test lim o df csv))).
Proof.
  split; intros lim o df csv; unfold States.test, Counties.test; cbn [snd];
    apply noise_filter_sorted.
  - apply states_joined_sorted.
  - apply counties_joined_sorted.
Qed.

End SortedMore.

(** ** The Presenter, one region at a time *)

Module PresentMore.

Import Pd Common Props More Examples Present.
Local Open Scope string_scope.

Lemma iloc_last_none {A : Type} (l : list A) :
  iloc_last l = None <-> l = [].
Proof.
  induction l as [|x l IH]; simpl; [tauto|].
  destruct l as [|y l]; [split; discriminate|].
  rewrite IH. split; discriminate.
Qed.

Lemma iloc_last_some {A : Type} (l : list A) (x : A) :
  iloc_last l = Some x -> exists front, l = (front ++ [x])%list.
Proof.
  induction l as [|y l IH]; simpl; [discriminate|].
  destruct l as [|z l].
  - intros [= ->]. now exists [].
  - intros H. destruct (IH H) as (front & ->). now exists (y :: front).
Qed.

Lemma for_each_completes {I : Type} (display : string -> run I)
  (names : list string) :
  snd (for_each display names) = None
  <-> Forall (fun name => snd (display name) = None) names.
Proof.
  induction names as [|name rest IH]; simpl.
  - split; [constructor | reflexivity].
  - destruct (display name) as [written [e|]] eqn:E; simpl.
    + split; [discriminate|]. intros H. inversion H as [|? ? H1 _]; subst.
      rewrite E in H1. discriminate.
    + destruct (for_each display rest) as [more e'] eqn:F. simpl in *.
      rewrite IH. split.
      * intros H. constructor; [now rewrite E | exact H].
      * intros H. now inversion H.
Qed.

Lemma lstrip_fixed (sp : ascii -> bool) (s : string) :
  starts_with sp s = false -> Py.lstrip_with sp s = s.
Proof. destruct s as [|c s]; simpl; [reflexivity | now intros ->]. Qed.

Lemma strip_idempotent (s : string) : Py.strip (Py.strip s) = Py.strip s.
Proof.
  destruct (PyFacts.strip_with_spec Py.isspace s)
    as (pre & suf & _ & _ & _ & Hstart & Hend).
  unfold Py.strip. set (t := Py.strip_with Py.isspace s) in *.
  unfold Py.strip_with at 1, Py.rstrip_with.
  rewrite (lstrip_fixed _ t Hstart).
  unfold ends_with in Hend. rewrite (lstrip_fixed _ _ Hend).
  apply PyFacts.srev_involutive.
Qed.

Section Show.

Context {I : Type}.
Variable region : mrow I -> string.

Lemma filter_nil_iff (f : mrow I -> bool) (l : list (mrow I)) :
  filter f l = [] <-> forall m, In m l -> f m = false.
Proof.
  induction l as [|x l IH]; simpl.
  - split; [intros _ m [] | reflexivity].
  - destruct (f x) eqn:E.
    + split; [discriminate|]. intros H. specialize (H x (or_introl eq_refl)).
      congruence.
    + rewrite IH. split.
      * intros H m [<-|Hm]; [exact E | now apply H].
      * intros H m Hm. apply H. now right.
Qed.

(** The statistics of a region are printed when the table has a row whose
    region is the name without the whitespace around it, and [IndexError]
    is raised otherwise. *)
Lemma show_completes (norm : bool) (df : list (mrow I)) (name : string) :
  snd (show_region_stats region norm df name) = None
  <-> exists m, In m df /\ region m = Py.strip name.
Proof.
  unfold show_region_stats.
  destruct (iloc_last (filter (fun m => String.eqb (region m) (Py.strip name))
                              df)) as [m|] eqn:E.
  - split; [intros _ | destruct norm; reflexivity].
    apply iloc_last_some in E. destruct E as (front & E).
    assert (Hm : In m (filter (fun m => String.eqb (region m)
                                                   (Py.strip name)) df)).
    { rewrite E. apply in_or_app. right. now left. }
    apply filter_In in Hm. exists m. now rewrite <- String.eqb_eq.
  - split; [discriminate|]. intros (m & Hm & Hr).
    apply iloc_last_none in E.
    rewrite filter_nil_iff in E. specialize (E m Hm). simpl in E.
    rewrite Hr, String.eqb_refl in E. discriminate.
Qed.

End Show.

Lemma states_display_completes (o : StatesPresenter.popts)
  (df : list (mrow States.id_cols)) (name : string) :
  snd (StatesPresenter.display_one_state o df name) = None
  <-> Py.strip name = name /\ exists m, In m df /\ States.region m = name.
Proof.
  unfold StatesPresenter.display_one_state,
    StatesPresenter.show_state_stats.
  destruct (show_region_stats States.region _ _ name) as [stats e] eqn:E.
  simpl. replace e with (snd (show_region_stats States.region
    (States.norm (StatesPresenter.base o))
    (filter (fun m => String.eqb (States.region m) name) df) name))
    by now rewrite E.
  rewrite show_completes. split.
  - intros (m & Hm & Hr). apply filter_In in Hm. destruct Hm as [Hm Hn].
    apply String.eqb_eq in Hn. split; [congruence | now exists m].
  - intros (Hs & m & Hm & Hr). exists m. split; [|congruence].
    apply filter_In. split; [assumption|]. now apply String.eqb_eq.
Qed.

Lemma counties_display_completes (o : CountiesPresenter.popts)
  (df : list (mrow Counties.id_cols)) (name : string) :
  snd (CountiesPresenter.display_one_county o df name) = None
  <-> (CountiesPresenter.lines o = true -> Py.strip name = name)
      /\ exists m, In m df /\ Counties.region m = name.
Proof.
  unfold CountiesPresenter.display_one_county,
    CountiesPresenter.show_county_stats.
  destruct (iloc_last (filter (fun m => String.eqb (Counties.region m) name)
                              df)) as [m|] eqn:L.
  - assert (Hm : In m df /\ Counties.region m = name).
    { apply iloc_last_some in L. destruct L as (front & L).
      assert (Hin : In m (filter (fun m => String.eqb (Counties.region m)
                                                      name) df)).
      { rewrite L. apply in_or_app. right. now left. }
      apply filter_In in Hin. now rewrite <- String.eqb_eq. }
    destruct (CountiesPresenter.lines o).
    + destruct (show_region_stats Counties.region _ _ name)
        as [stats e] eqn:E.
      simpl. replace e with (snd (show_region_stats Counties.region
        (Counties.norm (CountiesPresenter.base o))
        (filter (fun m => String.eqb (Counties.region m) name) df) name))
        by now rewrite E.
      rewrite show_completes. split.
      * intros (x & Hx & Hr). apply filter_In in Hx.
         destruct Hx as [Hx Hn]. apply String.eqb_eq in Hn.
         split; [intros _; congruence | now exists x].
      * intros (Hs & x & Hx & Hr). specialize (Hs eq_refl).
         exists x. split; [|congruence].
         apply filter_In. split; [assumption|]. now apply String.eqb_eq.
    + simpl. split; [intros _ | reflexivity].
      split; [discriminate | now exists m].
  - simpl. split; [discriminate|]. intros (_ & m & Hm & Hr).
    apply iloc_last_none in L. rewrite filter_nil_iff in L.
    specialize (L m Hm). simpl in L.
    rewrite Hr, String.eqb_refl in L. discriminate.
Qed.

(** X15.  When a region is displayed: [display_one_state] ends without
    [IndexError] exactly when the name has no whitespace around it and the
    table has a row of that state; [display_one_county] exactly when the
    table has a row of that county and, with [--lines], the name has no
    whitespace around it. *)
Theorem display_completes_iff :
  (forall o df name,
      snd (StatesPresenter.display_one_state o df name) = None
      <-> Py.strip name = name
          /\ exists m, In m df /\ States.region m = name)
  /\ (forall o df name,
         snd (CountiesPresenter.display_one_county o df name) = None
         <-> (CountiesPresenter.lines o = true -> Py.strip name = name)
             /\ exists m, In m df /\ Counties.region m = name).
Proof.
  split; intros o df name.
  - apply states_display_completes.
  - apply counties_display_completes.
Qed.

(** X16.  With an explicit list of regions, the run of [test] without
    [--multi] ends without [IndexError] exactly when every name of the list
    has a row in the table given to the Presenter; a name that is not in
    the data, or whose rows the noise filter dropped, ends the run. *)
Theorem explicit_run_completes_iff :
  forall lim arg,
    Py.int lim arg = None ->
    (forall m n lines df csv,
        snd (StatesPresenter.per_state lim
               (StatesPresenter.POpts (States.Opts m n arg) lines) df csv)
        = None
        <-> Forall (fun name =>
                      exists x,
                        In x (snd (States.test lim (States.Opts m n arg)
                                     df csv))
                        /\ States.region x = name)
                   (map Py.strip (Py.split_comma arg)))
    /\ (forall m n s lines df csv,
           snd (CountiesPresenter.per_county lim
                  (CountiesPresenter.POpts (Counties.Opts arg m n s) lines)
                  df csv)
           = None
           <-> Forall (fun name =>
                         exists x,
                           In x (snd (Counties.test lim
                                        (Counties.Opts arg m n s) df csv))
                           /\ Counties.region x = name)
                      (map Py.strip (Py.split_comma arg))).
Proof.
  intros lim arg Hint. split.
  - intros m n lines df csv.
    unfold StatesPresenter.per_state, States.test. cbn [snd].
    rewrite for_each_completes.
    unfold States.get_state_list, get_region_list.
    cbn [States.states StatesPresenter.base]. rewrite Hint.
    unfold explicit_regions.
    rewrite !Forall_forall. split; intros H name Hname.
    + specialize (H name Hname). apply states_display_completes in H.
      exact (proj2 H).
    + apply states_display_completes. split; [|now apply H].
      apply in_map_iff in Hname. destruct Hname as (f & <- & _).
      apply strip_idempotent.
  - intros m n s lines df csv.
    unfold CountiesPresenter.per_county, Counties.test. cbn [snd].
    rewrite for_each_completes.
    unfold Counties.get_county_list, get_region_list.
    cbn [Counties.counties CountiesPresenter.base]. rewrite Hint.
    unfold explicit_regions.
    rewrite !Forall_forall. split; intros H name Hname.
    + specialize (H name Hname). apply counties_display_completes in H.
      exact (proj2 H).
    + apply counties_display_completes. split; [|now apply H].
      intros _. apply in_map_iff in Hname. destruct Hname as (f & <- & _).
      apply strip_idempotent.
Qed.

Lemma explicit_run_completes_iff_witness :
  Py.int 4300 "Alabama, Texas" = None
  /\ (snd (StatesPresenter.per_state 4300
             (StatesPresenter.POpts (States.Opts None false "Alabama, Texas")
                                    false)
             two_weeks two_weeks_pops) = None
      <-> Forall (fun name =>
                    exists x,
                      In x (snd (States.test 4300
                                   (States.Opts None false "Alabama, Texas")
                                   two_weeks two_weeks_pops))
                      /\ States.region x = name)
                 (map Py.strip (Py.split_comma "Alabama, Texas"))).
Proof.
  split; [reflexivity|].
  exact (proj1 (explicit_run_completes_iff 4300%nat "Alabama, Texas" eq_refl)
               None false false two_weeks two_weeks_pops).
Defined.

(** *** The row the statistics are read from *)

Lemma last_is_greatest {A : Type} (rel : A -> A -> Prop) (front : list A)
  (x y : A) :
  (forall a, rel a a) ->
  StronglySorted rel (front ++ [x])%list ->
  In y (front ++ [x])%list -> rel y x.
Proof.
  intros Hrefl Hs Hy. apply in_app_or in Hy. destruct Hy as [Hy|[<-|[]]].
  - apply SortFacts.strongly_app_inv in Hs. destruct Hs as [_ Hs].
    apply Hs; [assumption | now left].
  - apply Hrefl.
Qed.

Lemma state_row_le_date (a b : mrow States.id_cols) :
  state_row_le a b = true -> States.region a = States.region b ->
  (States.Date (ids (fst a)) <= States.Date (ids (fst b)))%Z.
Proof.
  unfold state_row_le, state_ids_le, States.region. intros H E.
  rewrite E, OrderFacts.compare_refl in H. lia.
Qed.

Lemma county_row_le_date (a b : mrow Counties.id_cols) :
  county_row_le a b = true ->
  Counties.parent (ids (fst a)) = Counties.parent (ids (fst b)) ->
  Counties.region a = Counties.region b ->
  (Counties.Date (ids (fst a)) <= Counties.Date (ids (fst b)))%Z.
Proof.
  unfold county_row_le, county_ids_le, Counties.region. intros H P E.
  rewrite P, E, !OrderFacts.compare_refl in H. lia.
Qed.

Section Latest.

Context {I : Type}.
Variable region : mrow I -> string.
Variable le : mrow I -> mrow I -> bool.
Hypothesis le_refl : forall a, le a a = true.

(** In a sorted table, the last row of a region stands after every row of
    the region. *)
Lemma last_of_region (df : list (mrow I)) (name : string) (m : mrow I) :
  StronglySorted (holds le) df ->
  iloc_last (filter (fun x => String.eqb (region x) name) df) = Some m ->
  In m df /\ region m = name
  /\ forall x, In x df -> region x = name -> le x m = true.
Proof.
  intros Hs Hl.
  apply (SortedMore.strongly_filter _
           (fun x => String.eqb (region x) name)) in Hs.
  apply iloc_last_some in Hl. destruct Hl as (front & Hl).
  rewrite Hl in Hs.
  assert (Hm : In m (filter (fun x => String.eqb (region x) name) df)).
  { rewrite Hl. apply in_or_app. right. now left. }
  apply filter_In in Hm. destruct Hm as [Hm Hr].
  apply String.eqb_eq in Hr. repeat split; try assumption.
  intros x Hx Hxr.
  apply (last_is_greatest (holds le) front m x); try assumption.
  rewrite <- Hl. apply filter_In. split; [assumption|].
  now apply String.eqb_eq.
Qed.

Lemma filter_twice (f : mrow I -> bool) (l : list (mrow I)) :
  filter f (filter f l) = filter f l.
Proof.
  induction l as [|x l IH]; simpl; [reflexivity|].
  destruct (f x) eqn:E; simpl; [rewrite E|]; now rewrite IH.
Qed.

End Latest.

(** X17.  When a state is displayed from the table given to the Presenter,
    the totals printed are those of the state's row with the latest date in
    that table: after the name (and the state's rows, with [--lines]) come
    the total cases and the total deaths of that row, as percentages with
    [--norm] and as counts without. *)
Theorem state_totals_are_of_latest_row :
  forall lim o df csv name,
    snd (StatesPresenter.display_one_state o
           (snd (States.test lim (StatesPresenter.base o) df csv)) name)
    = None ->
    exists m,
      In m (snd (States.test lim (StatesPresenter.base o) df csv))
      /\ States.region m = name
      /\ (forall x,
             In x (snd (States.test lim (StatesPresenter.base o) df csv)) ->
             States.region x = name ->
             (States.Date (ids (fst x)) <= States.Date (ids (fst m)))%Z)
      /\ fst (StatesPresenter.display_one_state o
                (snd (States.test lim (StatesPresenter.base o) df csv)) name)
         = (Text (newline ++ name)
            :: (if StatesPresenter.lines o
                then [Frame (filter (fun x => String.eqb (States.region x)
                                                         name)
                                    (snd (States.test lim
                                            (StatesPresenter.base o)
                                            df csv)))]
                else [])
            ++ (if States.norm (StatesPresenter.base o)
                then [Percent "total cases:  " (col total_cases_col m);
                      Percent "total deaths: " (col total_deaths_col m)]
                else [Count "total cases:  " (col total_cases_col m);
                      Count "total deaths: " (col total_deaths_col m)]))%list.
Proof.
  intros lim o df csv name Hok.
  assert (Hs : StronglySorted (holds state_row_le)
                 (snd (States.test lim (StatesPresenter.base o) df csv))).
  { apply SortedMore.noise_filter_sorted, SortedMore.states_joined_sorted. }
  set (t := snd (States.test lim (StatesPresenter.base o) df csv)) in *.
  pose proof (proj1 (states_display_completes o t name) Hok) as [Hstrip _].
  unfold StatesPresenter.display_one_state,
    StatesPresenter.show_state_stats, show_region_stats in *.
  rewrite Hstrip, filter_twice in *.
  destruct (iloc_last (filter (fun x => String.eqb (States.region x) name) t))
    as [m|] eqn:L; [|discriminate Hok].
  destruct (last_of_region States.region state_row_le
              SortedMore.state_row_le_refl t name m Hs L)
    as (Hm & Hr & Hmax).
  exists m. repeat split; try assumption.
  - intros x Hx Hxr. apply state_row_le_date; [now apply Hmax | congruence].
  - destruct (States.norm (StatesPresenter.base o)); reflexivity.
Qed.

Lemma counties_presented_parent (lim : nat) (o : Counties.opts)
  (df : list Counties.obs) (csv : list Counties.census)
  (x : mrow Counties.id_cols) :
  In x (snd (Counties.test lim o df csv)) ->
  Counties.parent (ids (fst x)) = Counties.opt_state o.
Proof.
  unfold Counties.test. cbn [snd]. intros Hx.
  apply FilterMore.noise_filter_sub in Hx. destruct Hx as [Hx _].
  unfold Counties.joined in Hx.
  assert (H : forall y,
             In y (merge Z.eqb (fun r => Counties.Fips (ids r))
                         (filter (fun r => String.eqb
                                             (Counties.parent (ids r))
                                             (Counties.opt_state o))
                                 (Counties.smooth (Counties.derive df)))
                         (Counties.get_populations csv)) ->
             Counties.parent (ids (fst y)) = Counties.opt_state o).
  { intros y Hy. apply FilterMore.merge_fst_In in Hy.
    apply filter_In in Hy. now apply String.eqb_eq. }
  destruct (Counties.norm o); [|now apply H].
  rewrite JoinFacts.normalize_percent in Hx. apply in_map_iff in Hx.
  destruct Hx as (y & <- & Hy). exact (H y Hy).
Qed.

(** X18.  When a county is displayed from the table given to the Presenter,
    the line printed is the name and the numeric code of the county's row
    with the latest date in that table, the code in the format [8,]; with
    [--lines] the total cases and the total deaths of that row follow. *)
Theorem county_line_is_of_latest_row :
  forall lim o df csv name,
    snd (CountiesPresenter.display_one_county o
           (snd (Counties.test lim (CountiesPresenter.base o) df csv)) name)
    = None ->
    exists m,
      In m (snd (Counties.test lim (CountiesPresenter.base o) df csv))
      /\ Counties.region m = name
      /\ (forall x,
             In x (snd (Counties.test lim (CountiesPresenter.base o) df csv))
             -> Counties.region x = name ->
             (Counties.Date (ids (fst x)) <= Counties.Date (ids (fst m)))%Z)
      /\ fst (CountiesPresenter.display_one_county o
                (snd (Counties.test lim (CountiesPresenter.base o) df csv))
                name)
         = Text (newline ++ name ++ " "
                 ++ Fmt.format_8_comma (Counties.Fips (ids (fst m))))
           :: (if CountiesPresenter.lines o then
                 if Counties.norm (CountiesPresenter.base o)
                 then [Percent "total cases:  " (col total_cases_col m);
                       Percent "total deaths: " (col total_deaths_col m)]
                 else [Count "total cases:  " (col total_cases_col m);
                       Count "total deaths: " (col total_deaths_col m)]
               else []).
Proof.
  intros lim o df csv name Hok.
  assert (Hs : StronglySorted (holds county_row_le)
                 (snd (Counties.test lim (CountiesPresenter.base o) df csv))).
  { apply SortedMore.noise_filter_sorted, SortedMore.counties_joined_sorted. }
  pose proof (counties_presented_parent lim (CountiesPresenter.base o)
                df csv) as Hparent.
  set (t := snd (Counties.test lim (CountiesPresenter.base o) df csv)) in *.
  unfold CountiesPresenter.display_one_county in *.
  destruct (iloc_last (filter (fun x => String.eqb (Counties.region x) name)
                              t)) as [m|] eqn:L; [|discriminate Hok].
  destruct (last_of_region Counties.region county_row_le
              SortedMore.county_row_le_refl t name m Hs L)
    as (Hm & Hr & Hmax).
  exists m. repeat split; try assumption.
  - intros x Hx Hxr. apply county_row_le_date; [now apply Hmax | | congruence].
    now rewrite !Hparent.
  - destruct (CountiesPresenter.lines o); [|reflexivity].
    unfold CountiesPresenter.show_county_stats, show_region_stats in *.
    destruct (iloc_last
                (filter (fun x => String.eqb (Counties.region x)
                                             (Py.strip name))
                        (filter (fun x => String.eqb (Counties.region x) name)
                                t))) as [m2|] eqn:L2;
      [|discriminate Hok].
    assert (Hstrip : Py.strip name = name).
    { apply iloc_last_some in L2. destruct L2 as (front & L2).
      assert (H2 : In m2 (filter (fun x => String.eqb (Counties.region x)
                                                      (Py.strip name))
                            (filter (fun x => String.eqb (Counties.region x)
                                                         name) t))).
      { rewrite L2. apply in_or_app. right. now left. }
      apply filter_In in H2. destruct H2 as [H2 E2].
      apply filter_In in H2. destruct H2 as [_ E1].
      apply String.eqb_eq in E1, E2. congruence. }
    rewrite Hstrip, filter_twice, L in L2. injection L2 as <-.
    destruct (Counties.norm (CountiesPresenter.base o)); reflexivity.
Qed.

Lemma state_totals_are_of_latest_row_witness :
  snd (StatesPresenter.display_one_state
         (StatesPresenter.POpts (States.Opts None false "Alabama") true)
         (snd (States.test 4300 (States.Opts None false "Alabama")
                 two_weeks two_weeks_pops))
         "Alabama") = None
  /\ exists m,
      In m (snd (States.test 4300 (States.Opts None false "Alabama")
                   two_weeks two_weeks_pops))
      /\ States.region m = "Alabama".
Proof.
  split; [reflexivity|].
  destruct (state_totals_are_of_latest_row 4300%nat
              (StatesPresenter.POpts (States.Opts None false "Alabama") true)
              two_weeks two_weeks_pops "Alabama" eq_refl)
    as (m & Hm & Hr & _).
  exists m. now split.
Defined.

Lemma county_line_is_of_latest_row_witness :
  snd (CountiesPresenter.display_one_county
         (CountiesPresenter.POpts
            (Counties.Opts "Anderson" None false "Texas") true)
         (snd (Counties.test 4300
                 (Counties.Opts "Anderson" None false "Texas")
                 two_weeks_counties two_weeks_county_pops))
         "Anderson") = None
  /\ exists m,
      In m (snd (Counties.test 4300
                   (Counties.Opts "Anderson" None false "Texas")
                   two_weeks_counties two_weeks_county_pops))
      /\ Counties.region m = "Anderson".
Proof.
  split; [reflexivity|].
  destruct (county_line_is_of_latest_row 4300%nat
              (CountiesPresenter.POpts
                 (Counties.Opts "Anderson" None false "Texas") true)
              two_weeks_counties two_weeks_county_pops "Anderson" eq_refl)
    as (m & Hm & Hr & _).
  exists m. now split.
Defined.

(** *** From the file to the printed line *)

Lemma states_joined_observed (mu : option string) (arg : string)
  (df : list States.obs) (csv : list States.census)
  (m : mrow States.id_cols) :
  In m (States.joined (States.Opts mu false arg) df csv) ->
  exists ob,
    In ob df
    /\ States.state ob = States.region m
    /\ States.date ob = States.Date (ids (fst m))
    /\ col total_cases_col m = of_int (States.cases ob)
    /\ col total_deaths_col m = of_int (States.deaths ob).
Proof.
  unfold States.joined. simpl. intros Hm.
  apply FilterMore.merge_fst_In in Hm.
  apply (in_map (fun r => (ids r, total_cases (vals r),
                           total_deaths (vals r)))) in Hm.
  rewrite DeriveMore.states_smooth_fst in Hm.
  apply in_map_iff in Hm. destruct Hm as (r & Hr & Hin).
  injection Hr as Hid Hc Hd.
  exists (state_observed r). split.
  - eapply Permutation_in;
      [apply (proj1 DeriveMore.derive_keeps_observations_helper df)|].
    now apply in_map.
  - unfold States.region, col. simpl. rewrite <- Hid, <- Hc, <- Hd.
    repeat split.
Qed.

(** X19.  Without [--norm] and [--lines], the three lines printed for a
    state are its name after an empty line, and the cumulative cases and
    deaths of an observation of that state in the file, each as an integer
    in groups of three digits in a field of eight characters; no row of
    the state in the table given to the Presenter is later than that
    observation. *)
Theorem printed_totals_are_observed_counts :
  forall lim mu arg df csv name,
    snd (StatesPresenter.display_one_state
           (StatesPresenter.POpts (States.Opts mu false arg) false)
           (snd (States.test lim (States.Opts mu false arg) df csv)) name)
    = None ->
    exists ob,
      In ob df
      /\ States.state ob = name
      /\ (forall x,
             In x (snd (States.test lim (States.Opts mu false arg) df csv)) ->
             States.region x = name ->
             (States.Date (ids (fst x)) <= States.date ob)%Z)
      /\ map text_of
             (fst (StatesPresenter.display_one_state
                     (StatesPresenter.POpts (States.Opts mu false arg) false)
                     (snd (States.test lim (States.Opts mu false arg) df csv))
                     name))
         = [Some (newline ++ name);
            Some ("total cases:  " ++ Fmt.format_8_comma (States.cases ob));
            Some ("total deaths: " ++ Fmt.format_8_comma (States.deaths ob))].
Proof.
  intros lim mu arg df csv name Hok.
  assert (Hs : StronglySorted (holds state_row_le)
                 (snd (States.test lim (States.Opts mu false arg) df csv))).
  { apply SortedMore.noise_filter_sorted, SortedMore.states_joined_sorted. }
  assert (Hsub : forall x,
             In x (snd (States.test lim (States.Opts mu false arg) df csv)) ->
             In x (States.joined (States.Opts mu false arg) df csv)).
  { intros x Hx. unfold States.test in Hx. cbn [snd] in Hx.
    now apply FilterMore.noise_filter_sub in Hx. }
  set (t := snd (States.test lim (States.Opts mu false arg) df csv)) in *.
  pose proof (proj1 (states_display_completes _ t name) Hok) as [Hstrip _].
  unfold StatesPresenter.display_one_state,
    StatesPresenter.show_state_stats, show_region_stats in *.
  cbn [StatesPresenter.lines StatesPresenter.base States.norm] in *.
  rewrite Hstrip, filter_twice in *.
  destruct (iloc_last (filter (fun x => String.eqb (States.region x) name) t))
    as [m|] eqn:L; [|discriminate Hok].
  destruct (last_of_region States.region state_row_le
              SortedMore.state_row_le_refl t name m Hs L)
    as (Hm & Hr & Hmax).
  destruct (states_joined_observed mu arg df csv m (Hsub m Hm))
    as (ob & Hob & Hst & Hdate & Hc & Hd).
  exists ob. repeat split; try assumption.
  - congruence.
  - intros x Hx Hxr. rewrite Hdate.
    apply state_row_le_date; [now apply Hmax | congruence].
  - rewrite Hc, Hd. reflexivity.
Qed.

Lemma printed_totals_are_observed_counts_witness :
  snd (StatesPresenter.display_one_state
         (StatesPresenter.POpts (States.Opts None false "Alabama") false)
         (snd (States.test 4300 (States.Opts None false "Alabama")
                 two_weeks two_weeks_pops))
         "Alabama") = None
  /\ exists ob,
      In ob two_weeks /\ States.state ob = "Alabama"
      /\ map text_of
             (fst (StatesPresenter.display_one_state
                     (StatesPresenter.POpts (States.Opts None false "Alabama")
                                            false)
                     (snd (States.test 4300 (States.Opts None false "Alabama")
                             two_weeks two_weeks_pops))
                     "Alabama"))
         = [Some (newline ++ "Alabama");
            Some ("total cases:  " ++ Fmt.format_8_comma (States.cases ob));
            Some ("total deaths: " ++ Fmt.format_8_comma (States.deaths ob))].
Proof.
  split; [reflexivity|].
  destruct (printed_totals_are_observed_counts 4300%nat None "Alabama"
              two_weeks two_weeks_pops "Alabama" eq_refl)
    as (ob & Hob & Hst & _ & Htext).
  exists ob. now repeat split.
Defined.

(** *** Runs that show nothing *)




Lemma normalize_nil {I : Type} : normalize (@nil (mrow I)) = [].
Proof. reflexivity. Qed.




End PresentMore.

(** ** The format of the printed integers *)

Module FmtMore.

Import Props More Examples.
Local Open Scope string_scope.

Lemma digit_val_char (d : Z) :
  (0 <= d < 10)%Z -> Py.digit_val (Fmt.digit_char d) = Some d.
Proof.
  intros H.
  assert (C : (d = 0 \/ d = 1 \/ d = 2 \/ d = 3 \/ d = 4 \/ d = 5 \/ d = 6
               \/ d = 7 \/ d = 8 \/ d = 9)%Z) by lia.
  repeat (destruct C as [->|C]; [reflexivity|]). now subst.
Qed.

Lemma length_append (a b : string) :
  String.length (a ++ b) = (String.length a + String.length b)%nat.
Proof. induction a as [|c a IH]; simpl; [reflexivity | now rewrite IH]. Qed.

Lemma reads_single (d : Z) :
  (0 <= d < 10)%Z -> reads_as (String (Fmt.digit_char d) "") d.
Proof.
  intros H. repeat split.
  - discriminate.
  - cbn [all_chars]. unfold is_digit. now rewrite digit_val_char.
  - intros b a c rest. cbn [append Py.digits_acc String.length].
    rewrite digit_val_char by assumption.
    change (Z.of_nat 1) with 1%Z. rewrite Z.pow_1_r.
    f_equal; lia.
Qed.

Lemma reads_snoc (ds : string) (q d : Z) :
  (0 <= d < 10)%Z -> reads_as ds q ->
  reads_as (ds ++ String (Fmt.digit_char d) "") (10 * q + d).
Proof.
  intros Hd (Hne & Hall & Hread). repeat split.
  - destruct ds; [congruence | discriminate].
  - rewrite PyFacts.all_chars_app, Hall. cbn [all_chars andb].
    unfold is_digit. now rewrite digit_val_char.
  - intros b a c rest. rewrite PyFacts.append_assoc.
    cbn [append]. rewrite Hread. cbn [Py.digits_acc].
    rewrite digit_val_char by assumption.
    rewrite length_append. cbn [String.length].
    replace (Z.of_nat (String.length ds + 1))
      with (Z.succ (Z.of_nat (String.length ds))) by lia.
    rewrite Z.pow_succ_r by lia.
    f_equal; lia.
Qed.

Lemma digits_onto_step (fuel : nat) (n : Z) (acc : string) :
  Fmt.digits_onto (S fuel) n acc
  = if (n <? 10)%Z then String (Fmt.digit_char (n mod 10)) acc
    else Fmt.digits_onto fuel (n / 10)
                         (String (Fmt.digit_char (n mod 10)) acc).
Proof. reflexivity. Qed.

Lemma digits_onto_reads (fuel : nat) (n : Z) (acc : string) :
  (0 <= n < 2 ^ Z.of_nat (S fuel))%Z ->
  exists ds,
    Fmt.digits_onto (S fuel) n acc = ds ++ acc
    /\ reads_as ds n
    /\ (String.length ds <= S fuel)%nat.
Proof.
  revert n acc. induction fuel as [|fuel IH]; intros n acc Hn.
  - exists (String (Fmt.digit_char (n mod 10)) "").
    change (2 ^ Z.of_nat 1)%Z with 2%Z in Hn.
    rewrite digits_onto_step. destruct (Z.ltb_spec n 10); [|lia].
    rewrite Z.mod_small by lia.
    split; [reflexivity|].
    split; [apply reads_single; lia | cbn [String.length]; lia].
  - rewrite digits_onto_step. destruct (Z.ltb_spec n 10) as [Hlt|Hge].
    + exists (String (Fmt.digit_char (n mod 10)) "").
      rewrite Z.mod_small by lia.
      split; [reflexivity|].
      split; [apply reads_single; lia | cbn [String.length]; lia].
    + assert (Hq : (0 <= n / 10 < 2 ^ Z.of_nat (S fuel))%Z).
      { split; [apply Z.div_pos; lia|].
        apply Z.div_lt_upper_bound; [lia|].
        replace (Z.of_nat (S (S fuel))) with (Z.succ (Z.of_nat (S fuel)))
          in Hn by lia.
        rewrite Z.pow_succ_r in Hn by lia. lia. }
      destruct (IH (n / 10)%Z (String (Fmt.digit_char (n mod 10)) acc) Hq)
        as (ds & Hds & Hread & Hlen).
      exists (ds ++ String (Fmt.digit_char (n mod 10)) "").
      split; [|split].
      * rewrite Hds, PyFacts.append_assoc. reflexivity.
      * rewrite (Z.div_mod n 10) at 2 by lia.
        apply reads_snoc; [|assumption].
        apply Z.mod_pos_bound. lia.
      * rewrite length_append. cbn [String.length]. lia.
Qed.

Lemma digits_reads (n : Z) :
  (0 <= n)%Z ->
  reads_as (Fmt.digits n) n
  /\ (String.length (Fmt.digits n) <= S (Z.to_nat (Z.log2 n)))%nat.
Proof.
  intros Hn. unfold Fmt.digits.
  destruct (digits_onto_reads (Z.to_nat (Z.log2 n)) n "")
    as (ds & Hds & Hread & Hlen).
  - split; [assumption|].
    replace (Z.of_nat (S (Z.to_nat (Z.log2 n)))) with (Z.succ (Z.log2 n))
      by (pose proof (Z.log2_nonneg n); lia).
    destruct (Z.eq_dec n 0) as [->|Hne]; [reflexivity|].
    apply Z.log2_spec. lia.
  - rewrite Hds, PyFacts.append_nil_r. now split.
Qed.

(** *** Reading a printed integer back *)

Lemma digit_cases (c : ascii) (d : Z) :
  Py.digit_val c = Some d -> c = Fmt.digit_char d /\ (0 <= d < 10)%Z.
Proof.
  unfold Py.digit_val, Fmt.digit_char. cbv zeta.
  destruct (48 <=? nat_of_ascii c)%nat eqn:H1; [|discriminate].
  destruct (nat_of_ascii c <=? 57)%nat eqn:H2; [|discriminate].
  apply Nat.leb_le in H1, H2. cbn [andb]. intros [= <-].
  rewrite Nat2Z.id.
  replace (48 + (nat_of_ascii c - 48))%nat with (nat_of_ascii c) by lia.
  rewrite ascii_nat_embedding. split; [reflexivity | lia].
Qed.

Lemma digit_is_plain (c : ascii) (d : Z) :
  Py.digit_val c = Some d ->
  Py.int_space c = false /\ Ascii.eqb c ","%char = false.
Proof.
  intros H. apply digit_cases in H. destruct H as [-> H].
  assert (C : (d = 0 \/ d = 1 \/ d = 2 \/ d = 3 \/ d = 4 \/ d = 5 \/ d = 6
               \/ d = 7 \/ d = 8 \/ d = 9)%Z) by lia.
  repeat (destruct C as [->|C]; [split; reflexivity|]).
  subst. split; reflexivity.
Qed.

Lemma is_digit_plain (c : ascii) :
  is_digit c = true ->
  Py.int_space c = false /\ Ascii.eqb c ","%char = false.
Proof.
  unfold is_digit. destruct (Py.digit_val c) eqn:E; [|discriminate].
  intros _. eapply digit_is_plain, E.
Qed.

Lemma remove_commas_app (a b : string) :
  Fmt.remove_commas (a ++ b) = Fmt.remove_commas a ++ Fmt.remove_commas b.
Proof.
  induction a as [|c a IH]; [reflexivity|].
  cbn [append Fmt.remove_commas]. rewrite IH.
  now destruct (Ascii.eqb c ",").
Qed.

Lemma remove_commas_srev (s : string) :
  Fmt.remove_commas (Py.srev s) = Py.srev (Fmt.remove_commas s).
Proof.
  induction s as [|c s IH]; [reflexivity|].
  rewrite PyFacts.srev_cons, remove_commas_app, IH.
  cbn [Fmt.remove_commas].
  destruct (Ascii.eqb c ","); [apply PyFacts.append_nil_r|].
  now rewrite PyFacts.srev_cons.
Qed.

Lemma remove_commas_digits (s : string) :
  all_chars is_digit s = true -> Fmt.remove_commas s = s.
Proof.
  induction s as [|c s IH]; [reflexivity|].
  cbn [all_chars Fmt.remove_commas]. intros H.
  apply andb_true_iff in H. destruct H as [Hc Hs].
  destruct (is_digit_plain c Hc) as [_ ->]. now rewrite IH.
Qed.

Lemma remove_commas_group3 (k : nat) (s : string) :
  Fmt.remove_commas (Fmt.group3 k s) = Fmt.remove_commas s.
Proof.
  revert k. induction s as [|c s IH]; intros k; [reflexivity|].
  destruct k as [|[|[|[|k]]]]; cbn [Fmt.group3 Fmt.remove_commas];
    now rewrite IH.
Qed.

Lemma remove_commas_grouped (n : Z) :
  (0 <= n)%Z -> Fmt.remove_commas (Fmt.grouped n) = Fmt.digits n.
Proof.
  intros Hn. unfold Fmt.grouped.
  rewrite remove_commas_srev, remove_commas_group3, remove_commas_srev.
  rewrite PyFacts.srev_involutive.
  apply remove_commas_digits.
  destruct (digits_reads n Hn) as [(_ & Hall & _) _]. exact Hall.
Qed.

Lemma remove_commas_spaces (k : nat) (s : string) :
  Fmt.remove_commas (Fmt.spaces k ++ s) = Fmt.spaces k ++ Fmt.remove_commas s.
Proof.
  induction k as [|k IH]; [reflexivity|].
  cbn [Fmt.spaces append Fmt.remove_commas].
  change (Ascii.eqb " " ",") with false. cbn iota. now rewrite IH.
Qed.

Lemma lstrip_spaces (k : nat) (s : string) :
  Py.lstrip_with Py.int_space (Fmt.spaces k ++ s)
  = Py.lstrip_with Py.int_space s.
Proof.
  induction k as [|k IH]; [reflexivity|].
  cbn [Fmt.spaces append Py.lstrip_with].
  change (Py.int_space " ") with true. cbn iota. exact IH.
Qed.

Lemma starts_digit (s : string) :
  s <> "" -> all_chars is_digit s = true ->
  starts_with Py.int_space s = false.
Proof.
  destruct s as [|c s]; [congruence|]. intros _ H.
  cbn [all_chars] in H. apply andb_true_iff in H. destruct H as [Hc _].
  exact (proj1 (is_digit_plain c Hc)).
Qed.

Lemma srev_not_empty (s : string) : s <> "" -> Py.srev s <> "".
Proof.
  destruct s as [|c s]; [congruence|]. intros _.
  rewrite PyFacts.srev_cons. destruct (Py.srev s); discriminate.
Qed.

(** A number and a sign lose nothing to [strip]. *)
Lemma strip_number (k : nat) (sign ds : string) :
  (sign = "" \/ sign = "-") ->
  ds <> "" -> all_chars is_digit ds = true ->
  Py.strip_with Py.int_space (Fmt.spaces k ++ sign ++ ds) = sign ++ ds.
Proof.
  intros Hsign Hne Hall. unfold Py.strip_with.
  rewrite lstrip_spaces.
  assert (Hstart : starts_with Py.int_space (sign ++ ds) = false).
  { destruct Hsign as [->| ->]; [|reflexivity].
    now apply starts_digit. }
  rewrite (PresentMore.lstrip_fixed _ _ Hstart).
  unfold Py.rstrip_with.
  rewrite PresentMore.lstrip_fixed; [apply PyFacts.srev_involutive|].
  rewrite PyFacts.srev_app.
  rewrite PyFacts.starts_with_app by now apply srev_not_empty.
  apply starts_digit; [now apply srev_not_empty|].
  now rewrite PyFacts.all_chars_srev.
Qed.

Lemma parse_of_reads (lim : nat) (ds : string) (n : Z) :
  reads_as ds n ->
  (lim = 0 \/ String.length ds <= lim)%nat ->
  Py.parse_digits lim ds = Some n.
Proof.
  intros (_ & _ & Hread) Hlim. unfold Py.parse_digits.
  rewrite <- (PyFacts.append_nil_r ds) at 1. rewrite Hread.
  cbn [Py.digits_acc Nat.add].
  replace (0 * 10 ^ Z.of_nat (String.length ds) + n)%Z with n by lia.
  destruct Hlim as [-> | Hlim]; [reflexivity|].
  destruct (Nat.ltb_spec lim (String.length ds)); [lia|].
  now rewrite andb_false_r.
Qed.

Lemma int_of_unsigned (lim k : nat) (ds : string) (n : Z) :
  reads_as ds n ->
  (lim = 0 \/ String.length ds <= lim)%nat ->
  Py.int lim (Fmt.spaces k ++ ds) = Some n.
Proof.
  intros Hread Hlim.
  pose proof (parse_of_reads lim ds n Hread Hlim) as Hparse.
  destruct Hread as (Hne & Hall & _).
  unfold Py.int.
  pose proof (strip_number k "" ds (or_introl eq_refl) Hne Hall) as Hs.
  cbn [append] in Hs. rewrite Hs.
  destruct ds as [|c r]; [congruence|].
  cbn [all_chars] in Hall. apply andb_true_iff in Hall.
  destruct Hall as [Hc _]. unfold is_digit in Hc.
  destruct (Py.digit_val c) as [d|] eqn:E; [|discriminate].
  apply digit_cases in E. destruct E as [-> Hd].
  assert (C : (d = 0 \/ d = 1 \/ d = 2 \/ d = 3 \/ d = 4 \/ d = 5 \/ d = 6
               \/ d = 7 \/ d = 8 \/ d = 9)%Z) by lia.
  repeat (destruct C as [->|C]; [exact Hparse|]).
  subst. exact Hparse.
Qed.

Lemma int_of_negative (lim k : nat) (ds : string) (n : Z) :
  reads_as ds n ->
  (lim = 0 \/ String.length ds <= lim)%nat ->
  Py.int lim (Fmt.spaces k ++ String "-" ds) = Some (- n)%Z.
Proof.
  intros Hread Hlim.
  pose proof (parse_of_reads lim ds n Hread Hlim) as Hparse.
  destruct Hread as (Hne & Hall & _).
  unfold Py.int.
  pose proof (strip_number k "-" ds (or_intror eq_refl) Hne Hall) as Hs.
  cbn [append] in Hs. rewrite Hs.
  cbv iota. now rewrite Hparse.
Qed.

Lemma length_spaces (k : nat) : String.length (Fmt.spaces k) = k.
Proof. induction k as [|k IH]; simpl; [reflexivity | now rewrite IH]. Qed.

Lemma log2_int64 (n : Z) :
  (0 <= n <= 2 ^ 63)%Z -> (S (Z.to_nat (Z.log2 n)) <= 64)%nat.
Proof.
  intros H.
  assert (L : (Z.log2 n <= 63)%Z).
  { rewrite <- (Z.log2_pow2 63) by lia. apply Z.log2_le_mono. lia. }
  pose proof (Z.log2_nonneg n). lia.
Qed.

(** X20.  The integers are printed so that they can be read back: for an
    int64 value, the text in the format [8,] has at least eight characters,
    and without its commas it is a literal that [int()] reads as the same
    value (with the interpreter's digit limit off or at a value it
    accepts). *)
Theorem printed_integer_reads_back :
  forall (lim : nat) (n : Z),
    (- 2 ^ 63 <= n < 2 ^ 63)%Z ->
    (lim = 0 \/ 640 <= lim)%nat ->
    Py.int lim (Fmt.remove_commas (Fmt.format_8_comma n)) = Some n
    /\ (8 <= String.length (Fmt.format_8_comma n))%nat.
Proof.
  intros lim n Hn Hlim. unfold Fmt.format_8_comma, Fmt.lpad. split.
  - rewrite remove_commas_spaces.
    destruct (Z.ltb_spec n 0) as [Hneg|Hpos].
    + cbn [Fmt.remove_commas]. change (Ascii.eqb "-" ",") with false.
      cbv iota. rewrite remove_commas_grouped by lia.
      destruct (digits_reads (- n)) as [Hread Hlen]; [lia|].
      rewrite (int_of_negative lim _ _ (- n) Hread).
      * f_equal. lia.
      * pose proof (log2_int64 (- n)). lia.
    + rewrite remove_commas_grouped by lia.
      destruct (digits_reads n Hpos) as [Hread Hlen].
      apply int_of_unsigned; [assumption|].
      pose proof (log2_int64 n). lia.
  - rewrite length_append, length_spaces. lia.
Qed.

Lemma printed_integer_reads_back_witness :
  (- 2 ^ 63 <= 28995881 < 2 ^ 63)%Z /\ (0 = 0 \/ 640 <= 0)%nat
  /\ Py.int 0 (Fmt.remove_commas (Fmt.format_8_comma 28995881))
     = Some 28995881%Z.
Proof.
  assert (H : (- 2 ^ 63 <= 28995881 < 2 ^ 63)%Z)
    by (split; [discriminate | reflexivity]).
  assert (L : (0 = 0 \/ 640 <= 0)%nat) by (left; reflexivity).
  split; [exact H|]. split; [exact L|].
  exact (proj1 (printed_integer_reads_back 0%nat 28995881%Z H L)).
Defined.

End FmtMore.
